(** * Sora video generation: parameter normalisation, strategy chain, poller

    A shallow embedding of [src/scripts/generate_video.py] and of the
    generation path of [src/app.py], with the properties of the
    orchestration core stated over it.

    Conventions.
    - Python [int] is [Z]; an argument that may be [None] is an [option].
    - Python [str] is [string]; only ASCII input is modelled (whitespace and
      digits outside ASCII are not recognised by [Py.int]).
    - [bytes] is [list byte]; JSON numbers are integers.
    - Wall-clock readings ([time.time()]) are rationals, in seconds.
    - Every effect (SDK call, HTTP request, clock, sleep, file access) goes
      through an abstract world; the calls made are recorded, with the time
      at which they were issued, in a ghost trace. *)

From Stdlib Require Import ZArith QArith Qround List String Ascii Bool Lia Lqa.
From Stdlib Require Import DecimalString DecimalPos.
From Stdlib Require Import Sorting.Sorted Sorting.Permutation.
From Stdlib Require Strings.Byte.
Import ListNotations.

Local Open Scope string_scope.
Local Open Scope Z_scope.

(** ** Python primitives used by the sources *)

Module Py.

Definition bytes := list Byte.byte.

(** [c.isspace()] on ASCII: TAB..CR, FS..US and the blank. *)
Definition is_space (c : ascii) : bool :=
  let n := N_of_ascii c in
  ((9 <=? n) && (n <=? 13) || (28 <=? n) && (n <=? 32))%N.

Definition is_digit (c : ascii) : bool :=
  let n := N_of_ascii c in ((48 <=? n) && (n <=? 57))%N.

Definition digit_val (c : ascii) : Z := Z.of_N (N_of_ascii c) - 48.

Definition lower_char (c : ascii) : ascii :=
  let n := N_of_ascii c in
  if ((65 <=? n) && (n <=? 90))%N then ascii_of_N (n + 32) else c.

(** [s.lower()] *)
Fixpoint lower (s : string) : string :=
  match s with
  | EmptyString => EmptyString
  | String c r => String (lower_char c) (lower r)
  end.

Fixpoint lstrip (s : string) : string :=
  match s with
  | String c r => if is_space c then lstrip r else s
  | EmptyString => EmptyString
  end.

Fixpoint rstrip (s : string) : string :=
  match s with
  | EmptyString => EmptyString
  | String c r =>
      match rstrip r with
      | EmptyString => if is_space c then EmptyString else String c EmptyString
      | r' => String c r'
      end
  end.

(** [s.strip()] *)
Definition strip (s : string) : string := rstrip (lstrip s).

Fixpoint starts_with (p s : string) : bool :=
  match p, s with
  | EmptyString, _ => true
  | String a p', String b s' => Ascii.eqb a b && starts_with p' s'
  | String _ _, EmptyString => false
  end.

(** [needle in hay] on strings *)
Fixpoint contains (needle hay : string) : bool :=
  starts_with needle hay ||
  match hay with
  | EmptyString => false
  | String _ r => contains needle r
  end.

(** [s.split(sep)] for a one-character separator; the result is never
    empty. *)
Fixpoint split (sep : ascii) (s : string) : list string :=
  match s with
  | EmptyString => [EmptyString]
  | String c r =>
      if Ascii.eqb c sep then EmptyString :: split sep r
      else match split sep r with
           | h :: t => String c h :: t
           | [] => [String c EmptyString]
           end
  end.

(** Digits of a decimal literal: single underscores are allowed between
    digits only. [had] tells whether the previous character was a digit. *)
Fixpoint int_digits (acc : Z) (had : bool) (s : string) : option Z :=
  match s with
  | EmptyString => if had then Some acc else None
  | String c r =>
      if is_digit c then int_digits (10 * acc + digit_val c) true r
      else if Ascii.eqb c "_" then
             if had then int_digits acc false r else None
           else None
  end.

(** [int(s)]: [None] stands for [ValueError]. *)
Definition int (s : string) : option Z :=
  match strip s with
  | String "-" r => option_map Z.opp (int_digits 0 false r)
  | String "+" r => int_digits 0 false r
  | r => int_digits 0 false r
  end.

(** [str(n)] for an integer *)
Definition str (n : Z) : string := NilZero.string_of_int (Z.to_int n).

(** Truth value of an integer *)
Definition truthy (n : Z) : bool := negb (n =? 0).

(** [min(x :: xs, key=key)]: the first element whose key is minimal. *)
Fixpoint min_from {A : Type} (key : A -> Z) (best : A) (rest : list A) : A :=
  match rest with
  | [] => best
  | x :: rest' =>
      if key x <? key best then min_from key x rest' else min_from key best rest'
  end.

End Py.

(** ** Parameter normalisation ([app.py] 53-82, [generate_video.py] 33-71;
    the two copies are identical) *)

(** The inline parse of both [parse_resolution_to_size] and
    [responses_http_generate]: [Some (w, h)] when the [try] block assigns
    both, [None] when the guard fails or an exception resets them. *)
Definition parse_wh (resolution : option string) : option (Z * Z) :=
  match resolution with
  | None => None
  | Some r =>
      if Py.contains "x" r then
        let parts := Py.split "x" (Py.lower r) in
        match nth_error parts 0, nth_error parts 1 with
        | Some p0, Some p1 =>
            match Py.int p0, Py.int p1 with
            | Some w, Some h => Some (w, h)
            | _, _ => None
            end
        | _, _ => None
        end
      else None
  end.

Definition fmt_size (cw ch : Z) : string := Py.str cw ++ "x" ++ Py.str ch.

Definition allowed_sizes : list (Z * Z) :=
  [(1280, 720); (720, 1280); (1792, 1024); (1024, 1792)].

Definition parse_resolution_to_size (resolution : option string) : string :=
  match parse_wh resolution with
  | Some (w, h) =>
      if Py.truthy w && Py.truthy h then
        let portrait := h >? w in
        let candidates :=
          if portrait then [(720, 1280); (1280, 720)] else [(1280, 720); (720, 1280)] in
        match candidates with
        | (cw, ch) :: _ => fmt_size cw ch
        | [] => "1280x720"
        end
      else "1280x720"
  | None => "1280x720"
  end.

Definition allowed_seconds : list Z := [4; 8; 12].

(** [duration or 4] *)
Definition duration_or_4 (duration : option Z) : Z :=
  match duration with
  | Some d => if Py.truthy d then d else 4
  | None => 4
  end.

(** [min(allowed, key=lambda x: abs(x - (duration or 4)))], with the literal
    list [allowed = [4, 8, 12]] split into its head and tail. *)
Definition bucket_target (duration : option Z) : Z :=
  Py.min_from (fun x => Z.abs (x - duration_or_4 duration)) 4 [8; 12].

Definition bucket_seconds (duration : option Z) : string :=
  Py.str (bucket_target duration).


(** ** Values exchanged with the provider *)

(** Decoded JSON, which is also what SDK attributes hold. Numbers are
    integers; a [JObj] is the decoded dict (first binding of a key wins). *)
#[local] Unset Elimination Schemes.
Inductive json : Type :=
| JNull
| JBool (b : bool)
| JNum (n : Z)
| JStr (s : string)
| JArr (items : list json)
| JObj (fields : list (string * json)).
#[local] Set Elimination Schemes.

(** [str(e)] is the message; [kind] is the exception class. *)
Inductive exn : Type := PyExc (kind msg : string).

Definition exn_str (e : exn) : string := let 'PyExc _ m := e in m.

(** Outcome of a computation: a value, a Python exception, or no answer
    within the given number of loop iterations. *)
Inductive result (A : Type) : Type :=
| Val (a : A)
| Raise (e : exn)
| OutOfFuel.
Arguments Val {A} a.
Arguments Raise {A} e.
Arguments OutOfFuel {A}.

Module Json.

Definition truthy (j : json) : bool :=
  match j with
  | JNull => false
  | JBool b => b
  | JNum n => negb (n =? 0)
  | JStr s => negb (String.eqb s "")
  | JArr l => match l with [] => false | _ => true end
  | JObj l => match l with [] => false | _ => true end
  end.

Fixpoint assoc (k : string) (l : list (string * json)) : option json :=
  match l with
  | [] => None
  | (k', v) :: r => if String.eqb k k' then Some v else assoc k r
  end.

(** [a or b] *)
Definition or_ (a b : json) : json := if truthy a then a else b.

Definition is_dict (j : json) : bool :=
  match j with JObj _ => true | _ => false end.

(** [j == s] for a string literal [s] *)
Definition eq_str (j : json) (s : string) : bool :=
  match j with JStr t => String.eqb t s | _ => false end.

(** [d.get(k, dflt)]; anything but a dict has no [get]. *)
Definition get_default (k : string) (dflt : json) (d : json) : exn + json :=
  match d with
  | JObj l => inr (match assoc k l with Some v => v | None => dflt end)
  | _ => inl (PyExc "AttributeError" "object has no attribute 'get'")
  end.

(** [d.get(k)] *)
Definition get (k : string) (d : json) : exn + json := get_default k JNull d.

(** [s in j] for a string [s] *)
Definition contains (s : string) (j : json) : exn + bool :=
  match j with
  | JObj l => inr (match assoc s l with Some _ => true | None => false end)
  | JArr l => inr (existsb (fun x => eq_str x s) l)
  | JStr t => inr (Py.contains s t)
  | _ => inl (PyExc "TypeError" "argument is not iterable")
  end.

(** [j[k]] for a string key *)
Definition item (k : string) (j : json) : exn + json :=
  match j with
  | JObj l => match assoc k l with
              | Some v => inr v
              | None => inl (PyExc "KeyError" k)
              end
  | _ => inl (PyExc "TypeError" "indices must be integers")
  end.

(** [j[0]] *)
Definition item0 (j : json) : exn + json :=
  match j with
  | JArr (x :: _) => inr x
  | JArr [] => inl (PyExc "IndexError" "list index out of range")
  | JStr (String c _) => inr (JStr (String c EmptyString))
  | JStr EmptyString => inl (PyExc "IndexError" "string index out of range")
  | JObj _ => inl (PyExc "KeyError" "0")
  | _ => inl (PyExc "TypeError" "object is not subscriptable")
  end.

Fixpoint chars (s : string) : list json :=
  match s with
  | EmptyString => []
  | String c r => JStr (String c EmptyString) :: chars r
  end.

(** The elements [for part in j] runs over *)
Definition iter (j : json) : exn + list json :=
  match j with
  | JArr l => inr l
  | JObj l => inr (map (fun kv => JStr (fst kv)) l)
  | JStr s => inr (chars s)
  | _ => inl (PyExc "TypeError" "object is not iterable")
  end.

(** [j in {s1, ..., sn}], a set of string literals: a list or dict is
    unhashable. *)
Definition in_str_set (j : json) (set : list string) : exn + bool :=
  match j with
  | JArr _ | JObj _ => inl (PyExc "TypeError" "unhashable type")
  | JStr s => inr (existsb (String.eqb s) set)
  | _ => inr false
  end.

End Json.

(** What the SDK hands back for a video: an object with attributes, or a
    plain dict. *)
Inductive SdkValue : Type :=
| SdkObject (attrs : list (string * json))
| SdkDict (fields : list (string * json)).

(** What [download_content] hands back: raw bytes, or an object that may
    have a [read()] method (which may raise) and a [content] attribute. *)
Inductive SdkContent : Type :=
| ContentBytes (b : Py.bytes)
| ContentObject (read : option (exn + option Py.bytes))
                (content : option (option Py.bytes)).

Record Client : Type := {
  has_videos : bool;
  has_poll : bool;
  has_download_content : bool
}.

Record CreateArgs : Type := {
  ca_model : string;
  ca_prompt : string;
  ca_seconds : string;
  ca_size : string;
  ca_poll_interval_ms : option Z;
  ca_input_reference : option string
}.

Record Response : Type := {
  status_code : Z;
  text : string;
  json_body : option json;        (* [None]: [r.json()] raises *)
  content : Py.bytes
}.

Definition Headers := list (string * string).

Inductive PostBody : Type :=
| Multipart (files : list (string * string))
| JsonBody (body : json).

(** Lines written to standard output. *)
Inductive Msg : Type :=
| MsgText (s : string)
| MsgExn (prefix : string) (e : exn)
| MsgHttp (prefix : string) (status : Z) (body : string)
| MsgJson (prefix : string) (j : json)
| MsgArgs (prefix : string) (a : CreateArgs).

(** Calls that leave the process, as recorded in the trace. *)
Inductive Event : Type :=
| EPrint (m : Msg)
| EOpenAI (api_key : string)
| ECreateAndPoll (a : CreateArgs)
| ECreate (a : CreateArgs)
| EPoll (vid : json)
| EDownload (vid : json)
| EGet (url : string) (headers : Headers) (timeout : Q)
| EPost (endpoint : string) (headers : Headers) (body : PostBody) (timeout : Q)
| ESleep (dt : Q)
| EOpen (path : string)
| EClose (path : string)
| EWrite (path : string) (data : Py.bytes).

(** ** The world outside the process

    The OpenAI SDK, the HTTP library, the clock and the file system are
    external: each is an operation on an abstract world state that returns
    either an exception or a value. *)
Class Runtime : Type := {
  World : Type;
  (** wall-clock time of a world state, read by [time.time()] *)
  now : World -> Q;
  (** [OpenAI is not None]: the SDK import succeeded *)
  sdk_present : bool;
  (** [OpenAI(api_key=...)] *)
  openai_new : string -> World -> (exn + Client) * World;
  (** [client.videos.create_and_poll(...)] *)
  videos_create_and_poll : CreateArgs -> World -> (exn + SdkValue) * World;
  (** [client.videos.create(...)] *)
  videos_create : CreateArgs -> World -> (exn + SdkValue) * World;
  (** [client.videos.poll(vid_id)] *)
  videos_poll : json -> World -> (exn + SdkValue) * World;
  (** [client.videos.download_content(vid_id)] *)
  videos_download_content : json -> World -> (exn + SdkContent) * World;
  (** [requests.get(url, headers=..., timeout=...)] *)
  http_get : string -> Headers -> Q -> World -> (exn + Response) * World;
  (** [requests.post(endpoint, headers=..., files=|json=..., timeout=...)] *)
  http_post : string -> Headers -> PostBody -> Q -> World -> (exn + Response) * World;
  (** [time.sleep(dt)] for [dt >= 0] *)
  sleep : Q -> World -> World;
  (** [Path(p).exists()] *)
  path_exists : string -> World -> bool;
  (** [open(p, "rb")] *)
  fs_open : string -> World -> (exn + unit) * World;
  (** [mkdir(parents)] then [open(p, "wb")] and [write] *)
  fs_write : string -> Py.bytes -> World -> (exn + unit) * World;
  (** [base64.b64decode(s)] *)
  b64decode : string -> exn + Py.bytes
}.

Section Program.

Context {RT : Runtime}.

(** *** State, trace and the monad of effects *)

Record State : Type := {
  world : World;
  trace : list (Q * Event)
}.

Definition M (A : Type) : Type := State -> result A * State.

Definition ret {A} (a : A) : M A := fun s => (Val a, s).

Definition raise {A} (e : exn) : M A := fun s => (Raise e, s).

Definition out_of_fuel {A} : M A := fun s => (OutOfFuel, s).

Definition bind {A B} (m : M A) (f : A -> M B) : M B :=
  fun s =>
    match m s with
    | (Val a, s') => f a s'
    | (Raise e, s') => (Raise e, s')
    | (OutOfFuel, s') => (OutOfFuel, s')
    end.

(** [try: m  except Exception as e: h e] *)
Definition try_except {A} (m : M A) (h : exn -> M A) : M A :=
  fun s =>
    match m s with
    | (Raise e, s') => h e s'
    | r => r
    end.

Definition lift {A} (r : exn + A) : M A :=
  match r with
  | inl e => raise e
  | inr a => ret a
  end.

Definition record (ev : Event) (s : State) (w' : World) : State :=
  {| world := w'; trace := trace s ++ [(now (world s), ev)] |}.

(** An external call: recorded at the time it is issued, then run. *)
Definition call {A} (ev : Event) (op : World -> (exn + A) * World) : M A :=
  fun s => let (r, w') := op (world s) in lift r (record ev s w').

Definition print (m : Msg) : M unit :=
  fun s => (Val tt, record (EPrint m) s (world s)).

(** [time.time()] *)
Definition time_time : M Q := fun s => (Val (now (world s)), s).

(** [time.sleep(dt)] *)
Definition time_sleep (dt : Q) : M unit :=
  if Qle_bool 0 dt then
    fun s => (Val tt, record (ESleep dt) s (sleep dt (world s)))
  else raise (PyExc "ValueError" "sleep length must be non-negative").

End Program.

Declare Scope py_scope.
Delimit Scope py_scope with py.
Notation "x <- m ;; k" := (bind m (fun x => k))
  (at level 61, m at next level, right associativity) : py_scope.
Notation "m ;;; k" := (bind m (fun _ => k))
  (at level 61, right associativity) : py_scope.

Local Open Scope py_scope.

(** A block either leaves the function with [return r] or falls through
    with the variables it has bound. *)
Inductive flow (R A : Type) : Type :=
| Return (r : R)
| Continue (a : A).
Arguments Return {R A} r.
Arguments Continue {R A} a.

Section Generate.

Context {RT : Runtime}.

(** *** Helpers shared by the strategies *)

(** [getattr(v, k, None)]; a dict has none of the attributes asked for. *)
Definition getattr_or_none (k : string) (v : SdkValue) : json :=
  match v with
  | SdkObject attrs =>
      match Json.assoc k attrs with Some x => x | None => JNull end
  | SdkDict _ => JNull
  end.

(** [hasattr(v, k)] *)
Definition hasattr (k : string) (v : SdkValue) : bool :=
  match v with
  | SdkObject attrs =>
      match Json.assoc k attrs with Some _ => true | None => false end
  | SdkDict _ => false
  end.

(** [isinstance(v, dict)] *)
Definition sdk_is_dict (v : SdkValue) : bool :=
  match v with SdkDict _ => true | SdkObject _ => false end.

(** [v.get(k)], evaluated only under [isinstance(v, dict)] *)
Definition sdk_get (k : string) (v : SdkValue) : json :=
  match v with
  | SdkDict fields =>
      match Json.assoc k fields with Some x => x | None => JNull end
  | SdkObject _ => JNull
  end.

(** [k in v], evaluated only under [isinstance(v, dict)] *)
Definition sdk_has_key (k : string) (v : SdkValue) : bool :=
  match v with
  | SdkDict fields =>
      match Json.assoc k fields with Some _ => true | None => false end
  | SdkObject _ => false
  end.

(** [r.raise_for_status()] *)
Definition raise_for_status (r : Response) : M unit :=
  if (400 <=? status_code r) && (status_code r <? 600)
  then raise (PyExc "HTTPError" (Py.str (status_code r)))
  else ret tt.

(** [r.json()] *)
Definition resp_json (r : Response) : M json :=
  match json_body r with
  | Some j => ret j
  | None => raise (PyExc "JSONDecodeError" "response body is not JSON")
  end.

(** [requests.get(url, headers=..., timeout=...)]; a [url] that is not a
    string is refused by the library before any request is sent. *)
Definition requests_get (url : json) (headers : Headers) (timeout : Q) : M Response :=
  match url with
  | JStr u => call (EGet u headers timeout) (http_get u headers timeout)
  | _ => raise (PyExc "MissingSchema" "Invalid URL")
  end.

Definition requests_post (endpoint : string) (headers : Headers)
    (body : PostBody) (timeout : Q) : M Response :=
  call (EPost endpoint headers body timeout) (http_post endpoint headers body timeout).

(** [r = requests.get(url, timeout=t); r.raise_for_status(); return r.content] *)
Definition fetch_content (url : json) (timeout : Q) : M (option Py.bytes) :=
  r <- requests_get url [] timeout ;;
  raise_for_status r ;;;
  ret (Some (content r)).

(** [model or "sora-2"] *)
Definition model_or_default (model : option string) : string :=
  match model with
  | Some m => if String.eqb m "" then "sora-2" else m
  | None => "sora-2"
  end.

Definition verification_notice : M unit :=
  print (MsgText "Organization verification required!") ;;;
  print (MsgText "Visit: https://platform.openai.com/settings/organization/general") ;;;
  print (MsgText "Click 'Verify Organization' and wait up to 15 minutes.").

(** The download step through the SDK helper ([generate_video.py] 129-138,
    [app.py] 135-145). *)
Definition sdk_download (client : Client) (video_obj : SdkValue)
  : M (flow (option Py.bytes) unit) :=
  let vid_id :=
    Json.or_ (getattr_or_none "id" video_obj)
             (if sdk_is_dict video_obj then sdk_get "id" video_obj else JNull) in
  if Json.truthy vid_id && has_download_content client then
    content <- call (EDownload vid_id) (videos_download_content vid_id) ;;
    match content with
    | ContentBytes b => ret (Return (Some b))
    | ContentObject (Some rd) _ => r <- lift rd ;; ret (Return r)
    | ContentObject None (Some c) => ret (Return c)
    | ContentObject None None => ret (Continue tt)
    end
  else ret (Continue tt).

(** [for key in ("url", "video_url"): ...] followed by [return None]
    ([generate_video.py] 143-155, [app.py] 148-160). *)
Fixpoint sdk_url_fields (video_obj : SdkValue) (keys : list string)
  : M (option Py.bytes) :=
  match keys with
  | [] => ret None
  | key :: rest =>
      let by_dict :=
        if sdk_is_dict video_obj && sdk_has_key key video_obj then
          match sdk_get key video_obj with
          | JStr u => fetch_content (JStr u) 180
          | _ => sdk_url_fields video_obj rest
          end
        else sdk_url_fields video_obj rest in
      if hasattr key video_obj then
        match getattr_or_none key video_obj with
        | JStr url => fetch_content (JStr url) 180
        | _ => by_dict
        end
      else by_dict
  end.

(** *** Strategy (a): the SDK ([generate_video.py] 74-158) *)

Definition sdk_args (model prompt : string) (duration : option Z)
    (resolution : option string) (poll_ms : option Z) (image : option string)
  : CreateArgs :=
  {| ca_model := model;
     ca_prompt := prompt;
     ca_seconds := bucket_seconds duration;
     ca_size := parse_resolution_to_size resolution;
     ca_poll_interval_ms := poll_ms;
     ca_input_reference := image |}.

(** [str(e)] names a verification failure ([generate_video.py] 103). *)
Definition is_verification_error (e : exn) : bool :=
  Py.contains "must be verified" (exn_str e) || Py.contains "403" (exn_str e).

(** The [except] branch for older SDKs ([generate_video.py] 109-125). *)
Definition sdk_create_then_poll (client : Client) (args : CreateArgs) : M SdkValue :=
  try_except
    (created <- call (ECreate args) (videos_create args) ;;
     let vid_id :=
       if sdk_is_dict created
       then Json.or_ (getattr_or_none "id" created) (sdk_get "id" created)
       else JNull in
     if Json.truthy vid_id && has_poll client
     then call (EPoll vid_id) (videos_poll vid_id)
     else ret created)
    (fun e2 =>
       raise (PyExc "RuntimeError" ("SDK videos create failed: " ++ exn_str e2))).

Definition try_sdk_generate (api_key prompt : string) (duration : option Z)
    (resolution : option string) (model : option string) : M (option Py.bytes) :=
  if negb sdk_present then ret None
  else
    try_except
      (client <- call (EOpenAI api_key) (openai_new api_key) ;;
       let selected_model := model_or_default model in
       if has_videos client then
         got <- try_except
                  (v <- (let a := sdk_args selected_model prompt duration resolution
                                          (Some 1000) None in
                         call (ECreateAndPoll a) (videos_create_and_poll a)) ;;
                   ret (Continue v))
                  (fun e =>
                     if is_verification_error e then
                       verification_notice ;;; ret (Return None)
                     else
                       v <- sdk_create_then_poll client
                              (sdk_args selected_model prompt duration resolution
                                        None None) ;;
                       ret (Continue v)) ;;
         match got with
         | Return r => ret r
         | Continue video_obj =>
             d <- try_except (sdk_download client video_obj)
                             (fun _ => ret (Continue tt)) ;;
             match d with
             | Return r => ret r
             | Continue _ => sdk_url_fields video_obj ["url"; "video_url"]
             end
         end
       else ret None)
      (fun exc =>
         print (MsgExn "SDK video generation failed, will try HTTP fallback: " exc) ;;;
         ret None).

(** *** The poller ([generate_video.py] 161-183) *)

Definition Qltb (a b : Q) : bool := negb (Qle_bool b a).

Definition json_headers (api_key : string) : Headers :=
  [("Authorization", "Bearer " ++ api_key); ("Content-Type", "application/json")].

(** What is done with a status answer ([generate_video.py] 171-181):
    [Return] leaves [http_poll], [Continue] goes back to the loop test. *)
Definition poll_result (r : Response) (poll_interval : Q) : M (flow json unit) :=
  if status_code r >=? 400 then
    print (MsgHttp "Polling error" (status_code r) (text r)) ;;;
    ret (Return JNull)
  else
    data <- resp_json r ;;
    st1 <- lift (Json.get "status" data) ;;
    state <- (if Json.truthy st1 then ret st1
              else lift (Json.get "state" data)) ;;
    ok <- lift (Json.in_str_set state ["succeeded"; "completed"; "done"]) ;;
    if ok then
      u1 <- lift (Json.get "video_url" data) ;;
      u <- (if Json.truthy u1 then ret u1 else lift (Json.get "url" data)) ;;
      ret (Return u)
    else
      bad <- lift (Json.in_str_set state ["failed"; "error"]) ;;
      if bad then
        print (MsgJson "Job failed: " data) ;;;
        ret (Return JNull)
      else
        time_sleep poll_interval ;;;
        ret (Continue tt).

(** One turn of the loop body ([generate_video.py] 170-181). *)
Definition poll_once (api_key : string) (status_url : json) (poll_interval : Q)
  : M (flow json unit) :=
  r <- requests_get status_url (json_headers api_key) 30 ;;
  poll_result r poll_interval.

(** The [while time.time() < deadline] loop and the lines after it;
    [fuel] bounds the number of turns that are unfolded. *)
Fixpoint http_poll_loop (fuel : nat) (api_key : string) (status_url : json)
    (deadline : Q) (poll_interval : Q) : M json :=
  match fuel with
  | O => out_of_fuel
  | S fuel' =>
      t <- time_time ;;
      if Qltb t deadline then
        turn <- poll_once api_key status_url poll_interval ;;
        match turn with
        | Return j => ret j
        | Continue _ =>
            http_poll_loop fuel' api_key status_url deadline poll_interval
        end
      else
        print (MsgText "Timed out waiting for video job to complete") ;;;
        ret JNull
  end.

Definition http_poll (fuel : nat) (api_key : string) (status_url : json)
    (timeout_seconds : Z) (poll_interval : Q) : M json :=
  t0 <- time_time ;;
  let deadline := (t0 + inject_Z timeout_seconds)%Q in
  http_poll_loop fuel api_key status_url deadline poll_interval.

(** *** Strategy (c): legacy multipart submission
    ([generate_video.py] 186-263) *)

Definition videos_endpoint : string := "https://api.openai.com/v1/videos".

Definition files_payload (prompt : string) (duration : option Z)
    (resolution : option string) (model : option string) : list (string * string) :=
  let size_str := parse_resolution_to_size resolution in
  [("model", model_or_default model); ("prompt", prompt)]
  ++ (if negb (String.eqb size_str "") then [("size", size_str)] else [])
  ++ (match duration with
      | Some d => if Py.truthy d then [("seconds", bucket_seconds duration)] else []
      | None => []
      end).

(** The diagnostic printed for a create error ([generate_video.py] 222-231). *)
Definition create_error_notice (r : Response) (data : json) : M unit :=
  print (MsgHttp "HTTP create error" (status_code r) (text r)) ;;;
  if Json.truthy data && Json.is_dict data then
    err <- lift (Json.get_default "error" (JObj []) data) ;;
    if Json.is_dict err then
      msg <- lift (Json.get_default "message" (JStr "") err) ;;
      verif <- lift (Json.contains "must be verified" msg) ;;
      if verif || (status_code r =? 403) then verification_notice else ret tt
    else ret tt
  else ret tt.

(** What is done with the answer to the submission
    ([generate_video.py] 216-263). *)
Definition legacy_result (fuel : nat) (api_key : string) (r : Response)
  : M (option Py.bytes) :=
  let data := match json_body r with Some j => j | None => JNull end in
  if status_code r >=? 400 then
    create_error_notice r data ;;; ret None
  else if negb (Json.truthy data) then
    print (MsgText "HTTP response was not JSON") ;;; ret None
  else
    immediate <- lift (Json.contains "video_url" data) ;;
    if immediate then
      url <- lift (Json.item "video_url" data) ;;
      fetch_content url 120
    else
      s1 <- lift (Json.get "status_url" data) ;;
      status_url <- (if Json.truthy s1 then ret s1
                     else lift (Json.get "poll_url" data)) ;;
      if Json.truthy status_url then
        url <- http_poll fuel api_key status_url 600 2 ;;
        if negb (Json.truthy url) then ret None
        else fetch_content url 120
      else
        maybe_url <- lift (Json.get "url" data) ;;
        match maybe_url with
        | JStr u => fetch_content (JStr u) 120
        | _ =>
            print (MsgText "Unknown response format; could not obtain video bytes") ;;;
            ret None
        end.

Definition legacy_headers (api_key : string) : Headers :=
  [("Authorization", "Bearer " ++ api_key)].

Definition http_fallback_generate (fuel : nat) (api_key prompt : string)
    (duration : option Z) (resolution : option string) (model : option string)
  : M (option Py.bytes) :=
  r <- requests_post videos_endpoint (legacy_headers api_key)
         (Multipart (files_payload prompt duration resolution model)) 120 ;;
  legacy_result fuel api_key r.

(** *** Strategy (b): the Responses API ([generate_video.py] 266-339) *)

Definition responses_endpoint : string := "https://api.openai.com/v1/responses".

Definition video_spec (duration : option Z) (resolution : option string) : json :=
  JObj
    ((match parse_wh resolution with
      | Some (width, height) =>
          if Py.truthy width && Py.truthy height
          then [("width", JNum width); ("height", JNum height)]
          else []
      | None => []
      end)
     ++ (match duration with
         | Some d => if Py.truthy d && (d >? 0) then [("duration", JNum d)] else []
         | None => []
         end)
     ++ [("format", JStr "mp4")]).

Definition responses_body (prompt : string) (duration : option Z)
    (resolution : option string) (model : option string) : json :=
  JObj
    [("model", JStr (model_or_default model));
     ("input",
      JArr
        [JObj
           [("role", JStr "user");
            ("content",
             JArr
               [JObj [("type", JStr "input_text"); ("text", JStr prompt)];
                JObj [("type", JStr "output_video");
                      ("video", video_spec duration resolution)]])]])].

(** [for part in content: ...] ([generate_video.py] 321-334) *)
Fixpoint responses_parts (parts : list json) : M (flow (option Py.bytes) unit) :=
  match parts with
  | [] => ret (Continue tt)
  | part :: rest =>
      ty <- lift (Json.get "type" part) ;;
      if Json.eq_str ty "output_video" then
        v <- lift (Json.get "video" part) ;;
        let video := Json.or_ v (JObj []) in
        url <- lift (Json.get "url" video) ;;
        match url with
        | JStr u =>
            b <- fetch_content (JStr u) 180 ;;
            ret (Return b)
        | _ =>
            b1 <- lift (Json.get "b64" video) ;;
            b64 <- (if Json.truthy b1 then ret b1
                    else lift (Json.get "data" video)) ;;
            match b64 with
            | JStr s =>
                bytes <- lift (b64decode s) ;;
                ret (Return (Some bytes))
            | _ => responses_parts rest
            end
        end
      else responses_parts rest
  end.

(** The [try] block that inspects the response ([generate_video.py] 317-334). *)
Definition responses_extract (data : json) : M (flow (option Py.bytes) unit) :=
  o <- lift (Json.get "output" data) ;;
  let output := Json.or_ o (JArr []) in
  if Json.truthy output then
    first <- lift (Json.item0 output) ;;
    c <- lift (Json.get "content" first) ;;
    let content := Json.or_ c (JArr []) in
    parts <- lift (Json.iter content) ;;
    responses_parts parts
  else ret (Continue tt).

(** What is done with the answer of the Responses API
    ([generate_video.py] 310-339). *)
Definition responses_result (r : Response) : M (option Py.bytes) :=
  if status_code r >=? 400 then
    print (MsgHttp "Responses API error" (status_code r) (text r)) ;;;
    ret None
  else
    data <- resp_json r ;;
    d <- try_except (responses_extract data) (fun _ => ret (Continue tt)) ;;
    match d with
    | Return b => ret b
    | Continue _ =>
        print (MsgText "Unknown Responses API format; could not obtain video bytes") ;;;
        ret None
    end.

Definition responses_http_generate (api_key prompt : string)
    (duration : option Z) (resolution : option string) (model : option string)
  : M (option Py.bytes) :=
  r <- requests_post responses_endpoint (json_headers api_key)
         (JsonBody (responses_body prompt duration resolution model)) 90 ;;
  responses_result r.

(** *** The orchestrator ([generate_video.py] 18-30, 356-392) *)

Record Args : Type := {
  arg_prompt : string;
  arg_duration : Z;
  arg_resolution : string;
  arg_model : option string;
  arg_out : string
}.

(** [sys.exit(n)] raises [SystemExit]; it is only used outside any [try]. *)
Definition sys_exit {A} (code : Z) : M A :=
  raise (PyExc "SystemExit" (Py.str code)).

(** [env_key] is the value of [os.getenv("OPENAI_API_KEY", "")]. *)
Definition load_api_key (env_key : string) : M string :=
  let api_key := Py.strip env_key in
  if String.eqb api_key "" then
    print (MsgText "Missing OPENAI_API_KEY. Put it in .env or export it.") ;;;
    sys_exit 2
  else ret api_key.

Definition save_binary (data : Py.bytes) (out_path : string) : M unit :=
  call (EWrite out_path data) (fs_write out_path data).

(** [not video_bytes] *)
Definition bytes_falsy (b : option Py.bytes) : bool :=
  match b with
  | None => true
  | Some [] => true
  | Some (_ :: _) => false
  end.

(** The tail of [main] once the chain has run ([generate_video.py] 387-392). *)
Definition finish (out : string) (video_bytes : option Py.bytes) : M unit :=
  if bytes_falsy video_bytes then
    print (MsgText "Video generation failed. See messages above.") ;;;
    sys_exit 3
  else
    save_binary (match video_bytes with Some b => b | None => [] end) out ;;;
    print (MsgText ("Saved video to " ++ out)).

Definition main (fuel : nat) (env_key : string) (args : Args) : M unit :=
  api_key <- load_api_key env_key ;;
  let duration := Some (arg_duration args) in
  let resolution := Some (arg_resolution args) in
  vb1 <- try_sdk_generate api_key (arg_prompt args) duration resolution
           (arg_model args) ;;
  vb2 <- (match vb1 with
          | None => responses_http_generate api_key (arg_prompt args) duration
                      resolution (arg_model args)
          | Some _ => ret vb1
          end) ;;
  vb3 <- (match vb2 with
          | None => http_fallback_generate fuel api_key (arg_prompt args) duration
                      resolution (arg_model args)
          | Some _ => ret vb2
          end) ;;
  finish (arg_out args) vb3.

End Generate.

(** ** The web application's SDK path ([app.py] 85-163) *)

Section App.

Context {RT : Runtime}.

(** [input_image_path and Path(input_image_path).exists()] *)
Definition image_usable (input_image_path : option string) (w : World) : bool :=
  match input_image_path with
  | Some p => negb (String.eqb p "") && path_exists p w
  | None => false
  end.

(** [kwargs["input_reference"] = open(p, "rb")] *)
Definition with_image (kwargs : CreateArgs) (p : string) : CreateArgs :=
  {| ca_model := ca_model kwargs;
     ca_prompt := ca_prompt kwargs;
     ca_seconds := ca_seconds kwargs;
     ca_size := ca_size kwargs;
     ca_poll_interval_ms := ca_poll_interval_ms kwargs;
     ca_input_reference := Some p |}.

(** The branch that attaches the reference image ([app.py] 117-130). *)
Definition create_with_image (kwargs : CreateArgs)
    (input_image_path : option string) : M SdkValue :=
  usable <- (fun s => (Val (image_usable input_image_path (world s)), s)) ;;
  match usable, input_image_path with
  | true, Some p =>
      try_except
        (call (EOpen p) (fs_open p) ;;;
         video_obj <- call (ECreateAndPoll (with_image kwargs p))
                           (videos_create_and_poll (with_image kwargs p)) ;;
         call (EClose p) (fun w => (inr tt, w)) ;;;
         ret video_obj)
        (fun e =>
           print (MsgExn "Failed to use input image: " e) ;;;
           call (ECreateAndPoll kwargs) (videos_create_and_poll kwargs))
  | _, _ =>
      print (MsgText "Creating video without input image...") ;;;
      call (ECreateAndPoll kwargs) (videos_create_and_poll kwargs)
  end.

(** From the video object to its bytes ([app.py] 132-160). *)
Definition extract_video (client : Client) (video_obj : SdkValue)
  : M (option Py.bytes) :=
  print (MsgText "Video object received") ;;;
  d <- sdk_download client video_obj ;;
  match d with
  | Return r => ret r
  | Continue _ => sdk_url_fields video_obj ["url"; "video_url"]
  end.

Definition generate_video_sdk (api_key prompt : string) (duration : option Z)
    (resolution : option string) (model : string)
    (input_image_path : option string) : M (option Py.bytes) :=
  if negb sdk_present then
    print (MsgText "OpenAI SDK not available") ;;; ret None
  else
    try_except
      (client <- call (EOpenAI api_key) (openai_new api_key) ;;
       if negb (has_videos client) then
         print (MsgText "Client does not have 'videos' attribute") ;;; ret None
       else
         let kwargs := sdk_args model prompt duration resolution (Some 2000) None in
         print (MsgArgs "Calling SDK with: " kwargs) ;;;
         video_obj <- create_with_image kwargs input_image_path ;;
         extract_video client video_obj)
      (fun e => print (MsgExn "SDK error: " e) ;;; ret None).

End App.

(** ** A scripted world

    A concrete [Runtime] for running the program: every kind of external
    call consumes the next entry of its own script (an exhausted script
    raises), and every call takes one second of wall-clock time. *)
Module Scripted.

Record sworld : Type := {
  clock : Q;
  sdk : bool;
  clients : list (exn + Client);
  create_and_polls : list (exn + SdkValue);
  creates : list (exn + SdkValue);
  polls : list (exn + SdkValue);
  downloads : list (exn + SdkContent);
  gets : list (exn + Response);
  posts : list (exn + Response);
  files : list string
}.

Definition exhausted : exn := PyExc "ConnectionError" "no scripted answer".

Definition next {A} (l : list (exn + A)) : (exn + A) * list (exn + A) :=
  match l with
  | [] => (inl exhausted, [])
  | x :: r => (x, r)
  end.

Definition tick (w : sworld) : Q := (clock w + 1)%Q.

Definition new_client (w : sworld) : (exn + Client) * sworld :=
  let (r, l) := next (clients w) in
  (r, {| clock := tick w; sdk := sdk w; clients := l;
         create_and_polls := create_and_polls w; creates := creates w;
         polls := polls w; downloads := downloads w; gets := gets w;
         posts := posts w; files := files w |}).

Definition do_create_and_poll (w : sworld) : (exn + SdkValue) * sworld :=
  let (r, l) := next (create_and_polls w) in
  (r, {| clock := tick w; sdk := sdk w; clients := clients w;
         create_and_polls := l; creates := creates w;
         polls := polls w; downloads := downloads w; gets := gets w;
         posts := posts w; files := files w |}).

Definition do_create (w : sworld) : (exn + SdkValue) * sworld :=
  let (r, l) := next (creates w) in
  (r, {| clock := tick w; sdk := sdk w; clients := clients w;
         create_and_polls := create_and_polls w; creates := l;
         polls := polls w; downloads := downloads w; gets := gets w;
         posts := posts w; files := files w |}).

Definition do_poll (w : sworld) : (exn + SdkValue) * sworld :=
  let (r, l) := next (polls w) in
  (r, {| clock := tick w; sdk := sdk w; clients := clients w;
         create_and_polls := create_and_polls w; creates := creates w;
         polls := l; downloads := downloads w; gets := gets w;
         posts := posts w; files := files w |}).

Definition do_download (w : sworld) : (exn + SdkContent) * sworld :=
  let (r, l) := next (downloads w) in
  (r, {| clock := tick w; sdk := sdk w; clients := clients w;
         create_and_polls := create_and_polls w; creates := creates w;
         polls := polls w; downloads := l; gets := gets w;
         posts := posts w; files := files w |}).

Definition do_get (w : sworld) : (exn + Response) * sworld :=
  let (r, l) := next (gets w) in
  (r, {| clock := tick w; sdk := sdk w; clients := clients w;
         create_and_polls := create_and_polls w; creates := creates w;
         polls := polls w; downloads := downloads w; gets := l;
         posts := posts w; files := files w |}).

Definition do_post (w : sworld) : (exn + Response) * sworld :=
  let (r, l) := next (posts w) in
  (r, {| clock := tick w; sdk := sdk w; clients := clients w;
         create_and_polls := create_and_polls w; creates := creates w;
         polls := polls w; downloads := downloads w; gets := gets w;
         posts := l; files := files w |}).

Definition advance (dt : Q) (w : sworld) : sworld :=
  {| clock := (clock w + dt)%Q; sdk := sdk w; clients := clients w;
     create_and_polls := create_and_polls w; creates := creates w;
     polls := polls w; downloads := downloads w; gets := gets w;
     posts := posts w; files := files w |}.

Definition exists_file (p : string) (w : sworld) : bool :=
  existsb (String.eqb p) (files w).

Definition open_file (p : string) (w : sworld) : (exn + unit) * sworld :=
  if exists_file p w then (inr tt, w)
  else (inl (PyExc "FileNotFoundError" p), w).

Definition write_file (p : string) (w : sworld) : (exn + unit) * sworld :=
  (inr tt, {| clock := clock w; sdk := sdk w; clients := clients w;
              create_and_polls := create_and_polls w; creates := creates w;
              polls := polls w; downloads := downloads w; gets := gets w;
              posts := posts w; files := p :: files w |}).

(** Base64 is not needed by the scripted runs: the decoder refuses. *)
Definition no_b64 (s : string) : exn + Py.bytes :=
  inl (PyExc "binascii.Error" s).

(** The scripted runtime; [present] is whether the SDK import succeeded. *)
Definition runtime (present : bool) : Runtime :=
  {| World := sworld;
     now := clock;
     sdk_present := present;
     openai_new := fun _ => new_client;
     videos_create_and_poll := fun _ => do_create_and_poll;
     videos_create := fun _ => do_create;
     videos_poll := fun _ => do_poll;
     videos_download_content := fun _ => do_download;
     http_get := fun _ _ _ => do_get;
     http_post := fun _ _ _ _ => do_post;
     sleep := advance;
     path_exists := exists_file;
     fs_open := open_file;
     fs_write := fun p _ => write_file p;
     b64decode := no_b64 |}.

Definition empty : sworld :=
  {| clock := 0; sdk := true; clients := []; create_and_polls := [];
     creates := []; polls := []; downloads := []; gets := []; posts := [];
     files := [] |}.

Definition start (present : bool) (w : sworld) : @State (runtime present) :=
  {| world := (w : @World (runtime present)); trace := [] |}.

(** The events of a final state, without their time stamps. *)
Definition events {present : bool} (s : @State (runtime present)) : list Event :=
  map snd (trace s).

End Scripted.

(** ** Observations on traces *)

Definition in_strs (s : string) (l : list string) : bool :=
  existsb (String.eqb s) l.

(** The provider's allowed values, as they are sent. *)
Definition seconds_values : list string := map Py.str allowed_seconds.

Definition size_values : list string :=
  map (fun p => fmt_size (fst p) (snd p)) allowed_sizes.

Definition args_normalized (a : CreateArgs) : bool :=
  in_strs (ca_seconds a) seconds_values && in_strs (ca_size a) size_values.

Definition field_normalized (kv : string * string) : bool :=
  if String.eqb (fst kv) "seconds" then in_strs (snd kv) seconds_values
  else if String.eqb (fst kv) "size" then in_strs (snd kv) size_values
  else true.

Definition json_items (j : json) : list json :=
  match j with JArr l => l | _ => [] end.

Definition json_field (k : string) (j : json) : list json :=
  match j with
  | JObj f => match Json.assoc k f with Some v => [v] | None => [] end
  | _ => []
  end.

(** The ["video"] descriptions inside a Responses request body. *)
Definition body_video_specs (body : json) : list json :=
  flat_map (json_field "video")
    (flat_map (fun m => flat_map json_items (json_field "content" m))
       (flat_map json_items (json_field "input" body))).

Definition spec_normalized (v : json) : bool :=
  match v with
  | JObj f =>
      (match Json.assoc "duration" f with
       | None => true
       | Some (JNum d) => existsb (Z.eqb d) allowed_seconds
       | Some _ => false
       end)
      && (match Json.assoc "width" f, Json.assoc "height" f with
          | None, None => true
          | Some (JNum w), Some (JNum h) =>
              existsb (fun p => (fst p =? w) && (snd p =? h)) allowed_sizes
          | _, _ => false
          end)
  | _ => true
  end.

(** A provider call carries only allowed duration and size values. *)
Definition normalized_event (e : Event) : bool :=
  match e with
  | ECreateAndPoll a | ECreate a => args_normalized a
  | EPost _ _ (Multipart files) _ => forallb field_normalized files
  | EPost _ _ (JsonBody body) _ => forallb spec_normalized (body_video_specs body)
  | _ => true
  end.

Definition is_get (e : Event) : bool :=
  match e with EGet _ _ _ => true | _ => false end.

Definition is_post (e : Event) : bool :=
  match e with EPost _ _ _ _ => true | _ => false end.



(** The name of an external call; [None] for output and local effects. *)
Definition call_name (e : Event) : option string :=
  match e with
  | EOpenAI _ => Some "OpenAI"
  | ECreateAndPoll _ => Some "videos.create_and_poll"
  | ECreate _ => Some "videos.create"
  | EPoll _ => Some "videos.poll"
  | EDownload _ => Some "videos.download_content"
  | EGet url _ _ => Some ("GET " ++ url)
  | EPost endpoint _ _ _ => Some ("POST " ++ endpoint)
  | EPrint _ | ESleep _ | EOpen _ | EClose _ | EWrite _ _ => None
  end.

(** The external calls of a trace, in order. *)
Definition provider_calls (l : list Event) : list string :=
  flat_map (fun e => match call_name e with Some n => [n] | None => [] end) l.

(** A predicate that accepts every call with allowed values that is not
    an HTTP POST: this is all the SDK strategy does. *)
Definition accepts_sdk_calls (P : Event -> bool) : Prop :=
  forall e, is_post e = false -> normalized_event e = true -> P e = true.




(** The number of status or media fetches in a trace. *)
Definition count_gets (l : list (Q * Event)) : nat :=
  List.length (filter (fun te => is_get (snd te)) l).

(** [d.get(k)] on the fields of a dict *)
Definition field (k : string) (fields : list (string * json)) : json :=
  match Json.assoc k fields with Some v => v | None => JNull end.



(** A natural number as a rational. *)
Definition Qnat (n : nat) : Q := inject_Z (Z.of_nat n).


Section Observations.

Context {RT : Runtime}.

(** [s'] is reached from [s] by recording events that all satisfy [P]. *)
Definition extends (P : Q * Event -> Prop) (s s' : State) : Prop :=
  exists l, trace s' = (trace s ++ l)%list /\ Forall P l.

(** Every run of [m] relates its initial and final state by [T]. *)
Definition preserves {A} (T : State -> State -> Prop) (m : M A) : Prop :=
  forall s r s', m s = (r, s') -> T s s'.

(** Every event recorded by [m] satisfies [P]. *)
Definition emits {A} (P : Event -> bool) (m : M A) : Prop :=
  preserves (extends (fun te => P (snd te) = true)) m.




(** The line printed when the deadline has passed. *)
Definition timed_out_line : Event :=
  EPrint (MsgText "Timed out waiting for video job to complete").


(** [s'] extends the trace of [s] by at most [n] fetches, each issued
    strictly before [deadline]. *)
Definition polled_within (n : nat) (deadline : Q) (s s' : State) : Prop :=
  exists l,
    trace s' = (trace s ++ l)%list /\
    Forall (fun te => is_get (snd te) = true -> (fst te < deadline)%Q) l /\
    (count_gets l <= n)%nat.





End Observations.

(** ** A world with one answer

    The clock is the whole state; every status fetch takes one second and
    gets the same answer; nothing else is available. *)
Module Steady.

Definition unavailable : exn := PyExc "ConnectionError" "unavailable".

Definition status_answer (st : string) : Response :=
  {| status_code := 200; text := "";
     json_body := Some (JObj [("status", JStr st);
                              ("video_url", JStr "https://cdn.example/v.mp4")]);
     content := [] |}.

Definition runtime (answer : Response) : Runtime :=
  {| World := Q;
     now := fun w => w;
     sdk_present := false;
     openai_new := fun _ w => (inl unavailable, w);
     videos_create_and_poll := fun _ w => (inl unavailable, w);
     videos_create := fun _ w => (inl unavailable, w);
     videos_poll := fun _ w => (inl unavailable, w);
     videos_download_content := fun _ w => (inl unavailable, w);
     http_get := fun _ _ _ w => (inr answer, (w + 1)%Q);
     http_post := fun _ _ _ _ w => (inl unavailable, w);
     sleep := fun dt w => (w + dt)%Q;
     path_exists := fun _ _ => false;
     fs_open := fun _ w => (inl unavailable, w);
     fs_write := fun _ _ w => (inl unavailable, w);
     b64decode := fun _ => inl unavailable |}.

Definition start (answer : Response) (t : Q) : @State (runtime answer) :=
  {| world := (t : @World (runtime answer)); trace := [] |}.

End Steady.

(** ** Scenarios *)

Module Scenario.

Import Scripted.

Definition ok_client : Client :=
  {| has_videos := true; has_poll := true; has_download_content := true |}.

Definition reply (status : Z) (body : option json) (data : Py.bytes) : Response :=
  {| status_code := status; text := ""; json_body := body; content := data |}.

Definition video : Py.bytes := [Byte.x00; Byte.x01; Byte.x02].

(** A 5 second, 640x360 request answered with a server error. *)
Definition responses_raw : sworld :=
  {| clock := 0; sdk := true; clients := []; create_and_polls := [];
     creates := []; polls := []; downloads := []; gets := [];
     posts := [inr (reply 500 None [])]; files := [] |}.

Definition demo_args : Args :=
  {| arg_prompt := "a cat"; arg_duration := 8; arg_resolution := "1280x720";
     arg_model := None; arg_out := "out.mp4" |}.

Definition media_url : string := "https://cdn.example/v.mp4".

(** The SDK and the Responses API fail in a way that can be retried; the
    legacy submission answers with the URL of the video. *)
Definition fail_fail_succeed : sworld :=
  {| clock := 0; sdk := true;
     clients := [inr ok_client];
     create_and_polls := [inl (PyExc "APIError" "server error")];
     creates := [inl (PyExc "APIError" "server error")];
     polls := []; downloads := [];
     gets := [inr (reply 200 None video)];
     posts := [inr (reply 500 None []);
               inr (reply 200 (Some (JObj [("video_url", JStr media_url)])) [])];
     files := [] |}.

Definition verification_message : string :=
  "Your organization must be verified to use the model".

Definition forbidden : Response :=
  reply 403
        (Some (JObj [("error", JObj [("message", JStr verification_message)])])) [].

(** The account is not verified: the SDK says so, and so would the two
    HTTP interfaces if they were asked. *)
Definition unverified : sworld :=
  {| clock := 0; sdk := true;
     clients := [inr ok_client];
     create_and_polls := [inl (PyExc "PermissionDeniedError" verification_message)];
     creates := []; polls := []; downloads := []; gets := [];
     posts := [inr forbidden; inr forbidden];
     files := [] |}.

(** The legacy submission answers with a URL whose download gives 404. *)
Definition legacy_url_404 : sworld :=
  {| clock := 0; sdk := false; clients := []; create_and_polls := [];
     creates := []; polls := []; downloads := [];
     gets := [inr (reply 404 None [])];
     posts := [inr (reply 500 None []);
               inr (reply 200 (Some (JObj [("video_url", JStr media_url)])) [])];
     files := [] |}.

(** The SDK answers with a video object that carries a URL whose download
    gives 404. *)
Definition sdk_url_404 : sworld :=
  {| clock := 0; sdk := true;
     clients := [inr {| has_videos := true; has_poll := false;
                        has_download_content := false |}];
     create_and_polls := [inr (SdkObject [("url", JStr media_url)])];
     creates := []; polls := []; downloads := [];
     gets := [inr (reply 404 None [])];
     posts := [];
     files := [] |}.

(** The Responses API answers with a video part whose URL gives 404. *)
Definition responses_url_404 : sworld :=
  {| clock := 0; sdk := false; clients := []; create_and_polls := [];
     creates := []; polls := []; downloads := [];
     gets := [inr (reply 404 None [])];
     posts := [inr (reply 200
                      (Some (JObj [("output",
                         JArr [JObj [("content",
                           JArr [JObj [("type", JStr "output_video");
                                       ("video", JObj [("url", JStr media_url)])]])]])]))
                      [])];
     files := [] |}.

Definition status_url : string := "https://api.example/v1/jobs/42".

(** A reference image that the provider refuses; the same request without
    it is accepted, and the video is downloaded through the SDK. *)
Definition image_refused : sworld :=
  {| clock := 0; sdk := true;
     clients := [inr ok_client];
     create_and_polls := [inl (PyExc "BadRequestError" "unsupported image");
                          inr (SdkObject [("id", JStr "video_123")])];
     creates := []; polls := [];
     downloads := [inr (ContentBytes video)];
     gets := []; posts := [];
     files := ["videos/input_1.jpg"] |}.

(** A job that is in progress twice and then done. *)
Definition pending_pending_succeeded : sworld :=
  {| clock := 0; sdk := false; clients := []; create_and_polls := [];
     creates := []; polls := []; downloads := [];
     gets := [inr (Steady.status_answer "running");
              inr (Steady.status_answer "queued");
              inr (Steady.status_answer "succeeded")];
     posts := [];
     files := [] |}.

(** No SDK; both HTTP interfaces answer 200 with a body that is not JSON. *)
Definition not_json : sworld :=
  {| clock := 0; sdk := false; clients := []; create_and_polls := [];
     creates := []; polls := []; downloads := []; gets := [];
     posts := [inr (reply 200 None []); inr (reply 200 None [])];
     files := [] |}.

(** An older SDK: [videos.create] hands back an object with an id, and
    [videos.poll] would answer if it were asked. *)
Definition created_object : sworld :=
  {| clock := 0; sdk := true; clients := []; create_and_polls := [];
     creates := [inr (SdkObject [("id", JStr "video_123"); ("status", JStr "queued")])];
     polls := [inr (SdkObject [("id", JStr "video_123"); ("status", JStr "completed")])];
     downloads := []; gets := []; posts := []; files := [] |}.

(** The video has an id and a URL; its download through the SDK fails, and
    the URL can be fetched. *)
Definition download_fails : sworld :=
  {| clock := 0; sdk := true;
     clients := [inr ok_client];
     create_and_polls := [inr (SdkObject [("id", JStr "video_123");
                                          ("url", JStr media_url)])];
     creates := []; polls := [];
     downloads := [inl (PyExc "APIError" "download failed")];
     gets := [inr (reply 200 None video)];
     posts := []; files := [] |}.

(** No SDK and no Responses API; the legacy endpoint answers 403 without
    a body. *)
Definition forbidden_without_body : sworld :=
  {| clock := 0; sdk := false; clients := []; create_and_polls := [];
     creates := []; polls := []; downloads := []; gets := [];
     posts := [inr (reply 403 None [])];
     files := [] |}.

(** The SDK hands back a video whose download is empty. *)
Definition sdk_empty_download : sworld :=
  {| clock := 0; sdk := true;
     clients := [inr ok_client];
     create_and_polls := [inr (SdkObject [("id", JStr "video_123")])];
     creates := []; polls := [];
     downloads := [inr (ContentBytes [])];
     gets := [];
     posts := [inr (reply 200 (Some (JObj [("video_url", JStr media_url)])) []);
               inr (reply 200 (Some (JObj [("video_url", JStr media_url)])) [])];
     files := [] |}.

End Scenario.

(** ** Shapes of strings *)

(** Every character of [s] satisfies [p]. *)
Fixpoint all_chars (p : ascii -> bool) (s : string) : bool :=
  match s with
  | EmptyString => true
  | String c r => p c && all_chars p r
  end.

(** A character of a rendered integer: a digit or the minus sign. *)
Definition is_numeral_char (c : ascii) : bool :=
  Py.is_digit c || Ascii.eqb c "-".


(** ** Kinds of calls *)

(** What the SDK strategy of the script may do: talk to the SDK, fetch a
    URL, print. *)
Definition sdk_footprint (e : Event) : bool :=
  match e with
  | EOpenAI _ | ECreateAndPoll _ | ECreate _ | EPoll _ | EDownload _
  | EGet _ _ _ | EPrint _ => true
  | _ => false
  end.

(** What the SDK path of the web application may do: as above without
    [videos.create] and [videos.poll], plus opening and closing the image. *)
Definition app_footprint (e : Event) : bool :=
  match e with
  | EOpenAI _ | ECreateAndPoll _ | EDownload _ | EGet _ _ _ | EPrint _
  | EOpen _ | EClose _ => true
  | _ => false
  end.

(** Fetching, sleeping and printing: what happens after a submission. *)
Definition after_post_footprint (e : Event) : bool :=
  match e with
  | EGet _ _ _ | ESleep _ | EPrint _ => true
  | _ => false
  end.

(** Fetching and printing only. *)
Definition fetch_footprint (e : Event) : bool :=
  match e with
  | EGet _ _ _ | EPrint _ => true
  | _ => false
  end.

Definition is_empty (b : Py.bytes) : bool :=
  match b with [] => true | _ :: _ => false end.

(** A file write, if [e] is one, puts non-empty data at [out]. *)
Definition write_ok (out : string) (e : Event) : bool :=
  match e with
  | EWrite p d => String.eqb p out && negb (is_empty d)
  | _ => true
  end.

Definition is_write (e : Event) : bool :=
  match e with EWrite _ _ => true | _ => false end.


(** ** Model discovery ([list_models.py] 31-46) *)

(** ["video" in lower or "sora" in lower], for [lower = model_id.lower()] *)
Definition looks_video_capable (model_id : string) : bool :=
  let lower := Py.lower model_id in
  Py.contains "video" lower || Py.contains "sora" lower.

(** The loop over [models.data]; [ids] are the values of
    [getattr(m, "id", "")], in order. *)
Fixpoint video_candidates (ids : list string) : list string :=
  match ids with
  | [] => []
  | model_id :: rest =>
      if String.eqb model_id "" then video_candidates rest
      else if looks_video_capable model_id then model_id :: video_candidates rest
      else video_candidates rest
  end.

Fixpoint insert_sorted (x : string) (l : list string) : list string :=
  match l with
  | [] => [x]
  | y :: r => if String.leb x y then x :: l else y :: insert_sorted x r
  end.

(** [sorted(l)] on strings: a stable sort by code points. *)
Fixpoint py_sorted (l : list string) : list string :=
  match l with
  | [] => []
  | x :: r => insert_sorted x (py_sorted r)
  end.

(** The lines [main] of [list_models.py] prints for the listed ids. *)
Definition discovered_report (ids : list string) : list Msg :=
  MsgText "Discovered models that look video-capable:"
  :: match video_candidates ids with
     | [] => [MsgText "  (none found; your account may not have access yet)"]
     | candidates => map (fun mid => MsgText ("  - " ++ mid)) (py_sorted candidates)
     end.

(** ** Pieces of the web application ([app.py]) *)

(** [load_api_key] of [app.py] (46-50); [env_key] is the value of
    [os.getenv("OPENAI_API_KEY", "")]. *)
Definition app_load_api_key {RT : Runtime} (env_key : string) : M string :=
  let api_key := Py.strip env_key in
  if String.eqb api_key "" then
    raise (PyExc "ValueError" "Missing OPENAI_API_KEY in .env")
  else ret api_key.

(** [s.endswith(suffix)] *)
Fixpoint ends_with (suffix s : string) : bool :=
  String.eqb s suffix ||
  match s with
  | EmptyString => false
  | String _ r => ends_with suffix r
  end.

(** The name of the output file ([app.py] 203-206); [t] is
    [int(time.time())]. *)
Definition video_file_name (name : string) (t : Z) : string :=
  let name := if String.eqb name "" then "video_" ++ Py.str t else name in
  if ends_with ".mp4" name then name else name ++ ".mp4".

Definition starts_with_space (s : string) : bool :=
  match s with
  | String c _ => Py.is_space c
  | EmptyString => false
  end.

Fixpoint ends_with_space (s : string) : bool :=
  match s with
  | EmptyString => false
  | String c EmptyString => Py.is_space c
  | String _ r => ends_with_space r
  end.


(** * Properties *)

(** ** Parameter normalisation *)

Example parse_1920 : parse_resolution_to_size (Some "1920x1080") = "1280x720".
Proof. reflexivity. Qed.

Example parse_portrait : parse_resolution_to_size (Some "1080x1920") = "720x1280".
Proof. reflexivity. Qed.

Example parse_upper_x : parse_resolution_to_size (Some "720X1280") = "1280x720".
Proof. reflexivity. Qed.

Example parse_malformed :
  map parse_wh [None; Some ""; Some "abc"; Some "12"; Some "x"; Some "axb"; Some "12x"]
  = [None; None; None; None; None; None; None].
Proof. reflexivity. Qed.

Example parse_blank_sign_underscore : parse_wh (Some " 7_2 x +9 ") = Some (72, 9).
Proof. reflexivity. Qed.

Example parse_three_parts : parse_wh (Some "1x2x3") = Some (1, 2).
Proof. reflexivity. Qed.

Example bucket_examples :
  map bucket_seconds [Some 1; Some 5; Some 6; Some 7; Some 10; Some 11; Some 600]
  = ["4"; "4"; "4"; "8"; "8"; "12"; "12"].
Proof. reflexivity. Qed.

Lemma truthy_true_iff (n : Z) : Py.truthy n = true <-> n <> 0.
Proof.
  unfold Py.truthy. rewrite negb_true_iff. apply Z.eqb_neq.
Qed.

Lemma truthy_false_iff (n : Z) : Py.truthy n = false <-> n = 0.
Proof.
  unfold Py.truthy. rewrite negb_false_iff. apply Z.eqb_eq.
Qed.

(** The value [bucket_seconds] renders is the one of 4, 8, 12 closest to
    the request, the smaller one on a tie. *)
Lemma bucket_target_spec (d : Z) :
  let t := bucket_target (Some d) in
  In t allowed_seconds /\
  (d <> 0 ->
   (forall a, In a allowed_seconds -> Z.abs (t - d) <= Z.abs (a - d)) /\
   (forall a, In a allowed_seconds -> Z.abs (a - d) = Z.abs (t - d) -> t <= a)) /\
  (d = 0 -> t = 4).
Proof.
  unfold bucket_target, duration_or_4, allowed_seconds; cbn [Py.min_from].
  destruct (Py.truthy d) eqn:Ed.
  - apply truthy_true_iff in Ed.
    repeat match goal with
           | |- context [?a <? ?b] => destruct (Z.ltb_spec a b)
           end; cbn [In];
      (split; [tauto | split; [intros _; split; intros a Ha; lia | lia]]).
  - apply truthy_false_iff in Ed. subst d. cbn. split; [tauto | split; [lia | reflexivity]].
Qed.

(** The size is one of the two 720p sizes, whatever the request. *)
Lemma parse_resolution_to_size_range (r : option string) :
  parse_resolution_to_size r = "1280x720" \/ parse_resolution_to_size r = "720x1280".
Proof.
  unfold parse_resolution_to_size.
  destruct (parse_wh r) as [[w h]|]; [|now left].
  destruct (Py.truthy w && Py.truthy h); [|now left].
  destruct (h >? w); [right | left]; reflexivity.
Qed.

(** C5. For every non-negative duration [d], [bucket_seconds] renders one of
    4, 8, 12 whose distance to [d] is minimal, the smaller one when two are
    equally close; 6 gives 4, and so do 0 and an absent duration. *)
Theorem bucket_seconds_closest :
  (forall d, 0 <= d ->
     exists t, bucket_seconds (Some d) = Py.str t /\
               In t allowed_seconds /\
               (forall a, In a allowed_seconds -> Z.abs (t - d) <= Z.abs (a - d)) /\
               (forall a, In a allowed_seconds ->
                          Z.abs (a - d) = Z.abs (t - d) -> t <= a)) /\
  bucket_seconds (Some 6) = "4" /\
  bucket_seconds (Some 0) = "4" /\
  bucket_seconds None = "4".
Proof.
  split; [|repeat split; reflexivity].
  intros d Hd. exists (bucket_target (Some d)).
  destruct (bucket_target_spec d) as (Hin & Hne & Hz).
  split; [reflexivity | split; [exact Hin|]].
  destruct (Z.eq_dec d 0) as [->|Hd0].
  - rewrite (Hz eq_refl). unfold allowed_seconds; cbn [In].
    split; intros a Ha; lia.
  - exact (Hne Hd0).
Qed.

Lemma bucket_seconds_closest_witness :
  exists t, bucket_seconds (Some 7) = Py.str t /\
            In t allowed_seconds /\
            (forall a, In a allowed_seconds -> Z.abs (t - 7) <= Z.abs (a - 7)) /\
            (forall a, In a allowed_seconds -> Z.abs (a - 7) = Z.abs (t - 7) -> t <= a).
Proof.
  apply (proj1 bucket_seconds_closest 7). lia.
Defined.




(** C10. A resolution whose parsed width or height is 0 gives ["1280x720"],
    also when the height is above the width: the guard [if w and h] sends it
    to the fallback. *)
Theorem zero_dimension_falls_back (r : option string) (w h : Z) :
  parse_wh r = Some (w, h) -> w = 0 \/ h = 0 ->
  parse_resolution_to_size r = "1280x720".
Proof.
  intros Hp Hz. unfold parse_resolution_to_size. rewrite Hp.
  replace (Py.truthy w && Py.truthy h) with false; [reflexivity|].
  symmetry. apply andb_false_iff.
  destruct Hz as [Hz|Hz]; [left | right]; now apply truthy_false_iff.
Qed.

Lemma zero_dimension_falls_back_witness :
  parse_wh (Some "0x500") = Some (0, 500) /\
  500 > 0 /\
  parse_resolution_to_size (Some "0x500") = "1280x720".
Proof.
  split; [reflexivity | split; [lia|]].
  apply (zero_dimension_falls_back (Some "0x500") 0 500); [reflexivity | now left].
Defined.

(** C6, as stated, fails: the allowed size ["1792x1024"] is not a fixed
    point of the size mapping. *)
Lemma normalize_idempotent_counterexample :
  ~ (forall s, In s (map (fun p => fmt_size (fst p) (snd p)) allowed_sizes) ->
               parse_resolution_to_size (Some s) = s).
Proof.
  intros H. specialize (H "1792x1024").
  assert (Hin : In "1792x1024" (map (fun p => fmt_size (fst p) (snd p)) allowed_sizes))
    by (vm_compute; tauto).
  specialize (H Hin). vm_compute in H. discriminate H.
Qed.

(** C6, amended. Normalisation is idempotent on what it produces: each of
    the durations 4, 8, 12 and each of the sizes ["1280x720"], ["720x1280"]
    is returned unchanged, and normalising any result again changes
    nothing. The two larger allowed sizes are mapped to the 720p size of
    their orientation. *)
Theorem normalize_idempotent :
  (forall d, In d allowed_seconds -> bucket_seconds (Some d) = Py.str d) /\
  (forall s, In s ["1280x720"; "720x1280"] -> parse_resolution_to_size (Some s) = s) /\
  (forall d, exists t, Py.int (bucket_seconds d) = Some t /\
                       bucket_seconds (Some t) = bucket_seconds d) /\
  (forall r, parse_resolution_to_size (Some (parse_resolution_to_size r))
             = parse_resolution_to_size r) /\
  parse_resolution_to_size (Some "1792x1024") = "1280x720" /\
  parse_resolution_to_size (Some "1024x1792") = "720x1280".
Proof.
  repeat split.
  - intros d Hd. unfold allowed_seconds in Hd; cbn [In] in Hd.
    destruct Hd as [<-|[<-|[<-|[]]]]; reflexivity.
  - intros s Hs. cbn [In] in Hs. destruct Hs as [<-|[<-|[]]]; reflexivity.
  - intros d. exists (bucket_target d).
    assert (Hin : In (bucket_target d) allowed_seconds).
    { destruct d as [d|].
      - apply (bucket_target_spec d).
      - vm_compute; tauto. }
    unfold bucket_seconds at 1 3.
    unfold allowed_seconds in Hin; cbn [In] in Hin.
    destruct Hin as [<-|[<-|[<-|[]]]]; split; reflexivity.
  - intros r. destruct (parse_resolution_to_size_range r) as [-> | ->]; reflexivity.
Qed.

Lemma normalize_idempotent_witness :
  bucket_seconds (Some 8) = Py.str 8 /\
  parse_resolution_to_size (Some "720x1280") = "720x1280".
Proof.
  split.
  - apply (proj1 normalize_idempotent 8). vm_compute; tauto.
  - apply (proj1 (proj2 normalize_idempotent) "720x1280"). vm_compute; tauto.
Defined.

(** ** Reasoning about runs *)

Section Runs.

Context {RT : Runtime}.

Lemma bind_inv {A B} (m : M A) (f : A -> M B) s r s' :
  bind m f s = (r, s') ->
  (exists a s1, m s = (Val a, s1) /\ f a s1 = (r, s')) \/
  (exists e, m s = (Raise e, s') /\ r = Raise e) \/
  (m s = (OutOfFuel, s') /\ r = OutOfFuel).
Proof.
  unfold bind. destruct (m s) as [[a|e|] s1]; intros H.
  - left. eauto.
  - right; left. inversion H; subst. eauto.
  - right; right. inversion H; subst. eauto.
Qed.

Lemma try_except_inv {A} (m : M A) (h : exn -> M A) s r s' :
  try_except m h s = (r, s') ->
  (exists e s1, m s = (Raise e, s1) /\ h e s1 = (r, s')) \/
  (m s = (r, s') /\ forall e, r <> Raise e).
Proof.
  unfold try_except. destruct (m s) as [[a|e|] s1]; intros H.
  - right. inversion H; subst. split; [reflexivity | discriminate].
  - left. eauto.
  - right. inversion H; subst. split; [reflexivity | discriminate].
Qed.

Section Preserves.

Variable T : State -> State -> Prop.
Hypothesis T_refl : forall s, T s s.
Hypothesis T_trans : forall s1 s2 s3, T s1 s2 -> T s2 s3 -> T s1 s3.

Lemma preserves_ret {A} (a : A) : preserves T (ret a).
Proof. intros s r s' H. inversion H; subst. apply T_refl. Qed.

Lemma preserves_raise {A} (e : exn) : preserves T (@raise _ A e).
Proof. intros s r s' H. inversion H; subst. apply T_refl. Qed.

Lemma preserves_out_of_fuel {A} : preserves T (@out_of_fuel _ A).
Proof. intros s r s' H. inversion H; subst. apply T_refl. Qed.

Lemma preserves_lift {A} (x : exn + A) : preserves T (lift x).
Proof. destruct x; [apply preserves_raise | apply preserves_ret]. Qed.

Lemma preserves_time_time : preserves T time_time.
Proof. intros s r s' H. inversion H; subst. apply T_refl. Qed.

Lemma preserves_bind {A B} (m : M A) (f : A -> M B) :
  preserves T m -> (forall a, preserves T (f a)) -> preserves T (bind m f).
Proof.
  intros Hm Hf s r s' H.
  destruct (bind_inv _ _ _ _ _ H) as [(a & s1 & H1 & H2) | [(e & H1 & _) | (H1 & _)]].
  - eapply T_trans; [eapply Hm | eapply Hf]; eassumption.
  - eapply Hm; eassumption.
  - eapply Hm; eassumption.
Qed.

Lemma preserves_try_except {A} (m : M A) (h : exn -> M A) :
  preserves T m -> (forall e, preserves T (h e)) -> preserves T (try_except m h).
Proof.
  intros Hm Hh s r s' H.
  destruct (try_except_inv _ _ _ _ _ H) as [(e & s1 & H1 & H2) | (H1 & _)].
  - eapply T_trans; [eapply Hm | eapply Hh]; eassumption.
  - eapply Hm; eassumption.
Qed.

Lemma preserves_call {A} (ev : Event) (op : World -> (exn + A) * World) :
  (forall s, T s (record ev s (snd (op (world s))))) ->
  preserves T (call ev op).
Proof.
  intros Hop s r s' H. unfold call in H.
  specialize (Hop s). destruct (op (world s)) as [x w']. cbn in Hop.
  destruct x; inversion H; subst; exact Hop.
Qed.

Lemma preserves_print (m : Msg) :
  (forall s, T s (record (EPrint m) s (world s))) -> preserves T (print m).
Proof. intros Hp s r s' H. inversion H; subst. apply Hp. Qed.

Lemma preserves_time_sleep (dt : Q) :
  (forall s, (0 <= dt)%Q -> T s (record (ESleep dt) s (sleep dt (world s)))) ->
  preserves T (time_sleep dt).
Proof.
  intros Hs s r s' H. unfold time_sleep in H.
  destruct (Qle_bool 0 dt) eqn:E.
  - inversion H; subst. apply Hs. now apply Qle_bool_iff.
  - inversion H; subst. apply T_refl.
Qed.

End Preserves.

(** *** Recording events that satisfy a predicate *)

Lemma extends_refl P s : extends P s s.
Proof. exists []. split; [now rewrite app_nil_r | constructor]. Qed.

Lemma extends_trans P s1 s2 s3 :
  extends P s1 s2 -> extends P s2 s3 -> extends P s1 s3.
Proof.
  intros (l1 & E1 & F1) (l2 & E2 & F2). exists (l1 ++ l2)%list. split.
  - rewrite E2, E1. now rewrite app_assoc.
  - apply Forall_app. now split.
Qed.

Lemma extends_record (P : Q * Event -> Prop) ev s w' :
  P (now (world s), ev) -> extends P s (record ev s w').
Proof.
  intros HP. exists [(now (world s), ev)]. split; [reflexivity|].
  constructor; [exact HP | constructor].
Qed.


End Runs.

Ltac preorder_side :=
  try solve [exact (extends_refl _) | exact (extends_trans _)].

(** One step through a computation; [solve_event] shows that an event
    about to be recorded is of the expected shape. *)
Ltac emits_step solve_event :=
  lazymatch goal with
  | |- preserves _ (bind _ _) =>
      apply preserves_bind; preorder_side; [ | intros ?]
  | |- preserves _ (try_except _ _) =>
      apply preserves_try_except; preorder_side; [ | intros ?]
  | |- preserves _ (ret _) => apply preserves_ret; preorder_side
  | |- preserves _ (raise _) => apply preserves_raise; preorder_side
  | |- preserves _ (sys_exit _) => apply preserves_raise; preorder_side
  | |- preserves _ out_of_fuel => apply preserves_out_of_fuel; preorder_side
  | |- preserves _ (lift _) => apply preserves_lift; preorder_side
  | |- preserves _ time_time => apply preserves_time_time; preorder_side
  | |- preserves _ (call _ _) =>
      apply preserves_call; preorder_side;
      intros ?; apply extends_record; solve_event
  | |- preserves _ (print _) =>
      apply preserves_print; preorder_side;
      intros ?; apply extends_record; solve_event
  | |- preserves _ (time_sleep _) =>
      apply preserves_time_sleep; preorder_side;
      intros ? ?; apply extends_record; solve_event
  | |- preserves _ (if ?b then _ else _) => destruct b
  | |- preserves _ (match ?x with _ => _ end) => destruct x
  end.

Ltac emits_with solve_event :=
  unfold emits; repeat emits_step solve_event.

(** ** Which calls each strategy makes *)

Section Calls.

Context {RT : Runtime}.

Lemma bucket_seconds_normalized d : in_strs (bucket_seconds d) seconds_values = true.
Proof.
  assert (Hin : In (bucket_target d) allowed_seconds).
  { destruct d as [d|]; [apply (bucket_target_spec d) | vm_compute; tauto]. }
  unfold bucket_seconds. unfold allowed_seconds in Hin; cbn [In] in Hin.
  destruct Hin as [<-|[<-|[<-|[]]]]; reflexivity.
Qed.

Lemma size_normalized r : in_strs (parse_resolution_to_size r) size_values = true.
Proof.
  destruct (parse_resolution_to_size_range r) as [-> | ->]; reflexivity.
Qed.

Lemma sdk_args_normalized model prompt d r poll image :
  args_normalized (sdk_args model prompt d r poll image) = true.
Proof.
  unfold args_normalized, sdk_args; cbn [ca_seconds ca_size].
  now rewrite bucket_seconds_normalized, size_normalized.
Qed.

Lemma files_payload_normalized prompt d r model :
  forallb field_normalized (files_payload prompt d r model) = true.
Proof.
  unfold files_payload.
  rewrite !forallb_app.
  apply andb_true_iff; split; [reflexivity|].
  apply andb_true_iff; split.
  - destruct (negb _); [|reflexivity].
    cbn [forallb]. unfold field_normalized; cbn [fst snd].
    change (String.eqb "size" "seconds") with false.
    change (String.eqb "size" "size") with true.
    cbv iota. now rewrite size_normalized.
  - destruct d as [d|]; [|reflexivity].
    destruct (Py.truthy d); [|reflexivity].
    cbn [forallb]. unfold field_normalized; cbn [fst snd].
    change (String.eqb "seconds" "seconds") with true.
    cbv iota. now rewrite bucket_seconds_normalized.
Qed.

Lemma emits_fetch_content P url timeout :
  (forall u h t, P (EGet u h t) = true) ->
  emits P (fetch_content url timeout).
Proof.
  intros HP. unfold fetch_content, raise_for_status, requests_get.
  emits_with ltac:(cbn; apply HP).
Qed.

Lemma emits_sdk_url_fields P video_obj keys :
  (forall u h t, P (EGet u h t) = true) ->
  emits P (sdk_url_fields video_obj keys).
Proof.
  intros HP. induction keys as [|key rest IH]; cbn [sdk_url_fields].
  - emits_with idtac.
  - repeat lazymatch goal with
           | |- emits _ (fetch_content _ _) => now apply emits_fetch_content
           | |- emits _ (sdk_url_fields _ _) => exact IH
           | |- emits _ (if ?b then _ else _) => destruct b
           | |- emits _ (match ?x with _ => _ end) => destruct x
           end.
Qed.

Lemma emits_sdk_download P client video_obj :
  (forall v, P (EDownload v) = true) ->
  emits P (sdk_download client video_obj).
Proof.
  intros HP. unfold sdk_download.
  emits_with ltac:(cbn; apply HP).
Qed.

End Calls.

Section StrategyCalls.

Context {RT : Runtime}.

Ltac sdk_event HP :=
  cbn [snd]; apply HP;
  [reflexivity | first [reflexivity | apply sdk_args_normalized]].

Lemma emits_verification_notice P :
  (forall m, P (EPrint m) = true) -> emits P verification_notice.
Proof.
  intros HP. unfold verification_notice. emits_with ltac:(cbn [snd]; apply HP).
Qed.

Lemma accepts_get P : accepts_sdk_calls P -> forall u h t, P (EGet u h t) = true.
Proof. intros HP u h t. now apply HP. Qed.

Lemma accepts_print P : accepts_sdk_calls P -> forall m, P (EPrint m) = true.
Proof. intros HP m. now apply HP. Qed.

Lemma accepts_download P : accepts_sdk_calls P -> forall v, P (EDownload v) = true.
Proof. intros HP v. now apply HP. Qed.

Lemma emits_try_sdk_generate P api_key prompt duration resolution model :
  accepts_sdk_calls P ->
  emits P (try_sdk_generate api_key prompt duration resolution model).
Proof.
  intros HP. unfold try_sdk_generate, sdk_create_then_poll.
  pose proof (emits_verification_notice P (accepts_print P HP)) as Hn.
  pose proof (fun c v => emits_sdk_download P c v (accepts_download P HP)) as Hd.
  pose proof (fun v k => emits_sdk_url_fields P v k (accepts_get P HP)) as Hu.
  unfold emits in *.
  repeat lazymatch goal with
         | |- preserves _ verification_notice => exact Hn
         | |- preserves _ (sdk_download _ _) => apply Hd
         | |- preserves _ (sdk_url_fields _ _) => apply Hu
         | |- _ => emits_step ltac:(sdk_event HP)
         end.
Qed.

Lemma emits_extract_video P client video_obj :
  accepts_sdk_calls P -> emits P (extract_video client video_obj).
Proof.
  intros HP. unfold extract_video.
  pose proof (emits_sdk_download P client video_obj (accepts_download P HP)) as Hd.
  pose proof (fun k => emits_sdk_url_fields P video_obj k (accepts_get P HP)) as Hu.
  unfold emits in *.
  repeat lazymatch goal with
         | |- preserves _ (sdk_download _ _) => apply Hd
         | |- preserves _ (sdk_url_fields _ _) => apply Hu
         | |- _ => emits_step ltac:(sdk_event HP)
         end.
Qed.

Lemma with_image_normalized kwargs p :
  args_normalized (with_image kwargs p) = args_normalized kwargs.
Proof. reflexivity. Qed.

Lemma emits_generate_video_sdk P api_key prompt duration resolution model image :
  accepts_sdk_calls P ->
  emits P (generate_video_sdk api_key prompt duration resolution model image).
Proof.
  intros HP. unfold generate_video_sdk, create_with_image.
  pose proof (fun c v => emits_extract_video P c v HP) as He.
  unfold emits in *.
  repeat lazymatch goal with
         | |- preserves _ (extract_video _ _) => apply He
         | |- preserves _ (fun s => (Val _, s)) =>
             intros ? ? ? Hrun; inversion Hrun; subst; apply extends_refl
         | |- _ =>
             emits_step ltac:(cbn [snd]; apply HP;
                              [reflexivity
                              | first [reflexivity
                                      | cbn [normalized_event];
                                        rewrite ?with_image_normalized;
                                        apply sdk_args_normalized]])
         end.
Qed.

Lemma emits_responses_parts P parts :
  (forall u h t, P (EGet u h t) = true) ->
  emits P (responses_parts parts).
Proof.
  intros HP. induction parts as [|part rest IH]; cbn [responses_parts].
  - emits_with idtac.
  - pose proof (fun u t => emits_fetch_content P u t HP) as Hf.
    unfold emits in *.
    repeat lazymatch goal with
           | |- preserves _ (fetch_content _ _) => apply Hf
           | |- preserves _ (responses_parts _) => exact IH
           | |- _ => emits_step idtac
           end.
Qed.

Lemma emits_responses_result P r :
  accepts_sdk_calls P -> emits P (responses_result r).
Proof.
  intros HP. unfold responses_result, responses_extract, resp_json.
  pose proof (fun p => emits_responses_parts P p (accepts_get P HP)) as Hp.
  unfold emits in *.
  repeat lazymatch goal with
         | |- preserves _ (responses_parts _) => apply Hp
         | |- _ => emits_step ltac:(cbn [snd]; apply HP; reflexivity)
         end.
Qed.


End StrategyCalls.

Section LegacyCalls.

Context {RT : Runtime}.

Lemma emits_poll_once P api_key status_url poll_interval :
  accepts_sdk_calls P -> emits P (poll_once api_key status_url poll_interval).
Proof.
  intros HP. unfold poll_once, poll_result, requests_get, resp_json.
  emits_with ltac:(cbn [snd]; apply HP; reflexivity).
Qed.

Lemma emits_http_poll_loop P fuel api_key status_url deadline poll_interval :
  accepts_sdk_calls P ->
  emits P (http_poll_loop fuel api_key status_url deadline poll_interval).
Proof.
  intros HP. induction fuel as [|fuel IH]; cbn [http_poll_loop].
  - emits_with idtac.
  - pose proof (emits_poll_once P api_key status_url poll_interval HP) as Ho.
    unfold emits in *.
    repeat lazymatch goal with
           | |- preserves _ (poll_once _ _ _) => exact Ho
           | |- preserves _ (http_poll_loop _ _ _ _ _) => exact IH
           | |- _ => emits_step ltac:(cbn [snd]; apply HP; reflexivity)
           end.
Qed.

Lemma emits_http_poll P fuel api_key status_url timeout poll_interval :
  accepts_sdk_calls P ->
  emits P (http_poll fuel api_key status_url timeout poll_interval).
Proof.
  intros HP. unfold http_poll.
  pose proof (fun d => emits_http_poll_loop P fuel api_key status_url d
                         poll_interval HP) as Hl.
  unfold emits in *.
  repeat lazymatch goal with
         | |- preserves _ (http_poll_loop _ _ _ _ _) => apply Hl
         | |- _ => emits_step idtac
         end.
Qed.

Lemma emits_legacy_result P fuel api_key r :
  accepts_sdk_calls P -> emits P (legacy_result fuel api_key r).
Proof.
  intros HP. unfold legacy_result, create_error_notice.
  pose proof (emits_verification_notice _ (accepts_print _ HP)) as Hn.
  pose proof (fun u t => emits_fetch_content _ u t (accepts_get _ HP)) as Hf.
  pose proof (fun k u t i => emits_http_poll _ fuel k u t i HP) as Hp.
  unfold emits in *.
  repeat lazymatch goal with
         | |- preserves _ verification_notice => exact Hn
         | |- preserves _ (fetch_content _ _) => apply Hf
         | |- preserves _ (http_poll _ _ _ _ _) => apply Hp
         | |- _ => emits_step ltac:(cbn [snd]; apply HP; reflexivity)
         end.
Qed.

Lemma emits_http_fallback_generate fuel api_key prompt duration resolution model :
  emits normalized_event
        (http_fallback_generate fuel api_key prompt duration resolution model).
Proof.
  assert (HP : accepts_sdk_calls normalized_event) by (intros e _ H; exact H).
  unfold http_fallback_generate, requests_post.
  pose proof (fun r => emits_legacy_result _ fuel api_key r HP) as Hr.
  unfold emits in *.
  repeat lazymatch goal with
         | |- preserves _ (legacy_result _ _ _) => apply Hr
         | |- _ => emits_step ltac:(cbn [snd]; apply files_payload_normalized)
         end.
Qed.

(** A computation that starts with an external call records it first. *)
Lemma first_call {A B} (ev : Event) (op : World -> (exn + A) * World)
    (k : A -> M B) (s : State) :
  (forall a, emits (fun _ => true) (k a)) ->
  exists l, trace (snd (bind (call ev op) k s))
            = (trace s ++ (now (world s), ev) :: l)%list.
Proof.
  intros Hk. unfold bind, call.
  destruct (op (world s)) as [[e|a] w']; cbn [lift raise ret].
  - exists []. reflexivity.
  - destruct (Hk a (record ev s w') _ _ (surjective_pairing _)) as (l & El & _).
    exists l. destruct (k a (record ev s w')) as [[v|e|] s']; cbn [snd] in *;
      rewrite El; cbn [record trace]; now rewrite <- app_assoc.
Qed.

Lemma accepts_all : accepts_sdk_calls (fun _ => true).
Proof. intros e _ _. reflexivity. Qed.

(** What the Responses strategy puts in its request: the parsed width and
    height and the requested duration, as given. *)
Lemma responses_body_raw prompt d r model w h :
  parse_wh r = Some (w, h) -> w <> 0 -> h <> 0 -> 0 < d ->
  body_video_specs (responses_body prompt (Some d) r model)
  = [JObj [("width", JNum w); ("height", JNum h); ("duration", JNum d);
           ("format", JStr "mp4")]].
Proof.
  intros Hp Hw Hh Hd.
  unfold responses_body, video_spec. rewrite Hp.
  apply truthy_true_iff in Hw, Hh. rewrite Hw, Hh.
  assert (Hd1 : Py.truthy d = true) by (apply truthy_true_iff; lia).
  assert (Hd2 : (d >? 0) = true) by (apply Z.gtb_lt; lia).
  rewrite Hd1, Hd2. reflexivity.
Qed.

Lemma responses_first_call api_key prompt duration resolution model s :
  exists l,
    trace (snd (responses_http_generate api_key prompt duration resolution model s))
    = (trace s
         ++ (now (world s),
             EPost responses_endpoint (json_headers api_key)
                   (JsonBody (responses_body prompt duration resolution model)) 90)
         :: l)%list.
Proof.
  unfold responses_http_generate, requests_post.
  apply first_call. intros r. apply emits_responses_result, accepts_all.
Qed.


End LegacyCalls.

(** ** C2: what is sent to the provider *)

(** C2, as stated, fails: for a 5 second, 640x360 request the Responses
    strategy posts a body that asks for 5 seconds at 640 by 360. *)
Lemma provider_calls_normalized_counterexample :
  ~ (forall (RT : Runtime) api_key prompt duration resolution model,
       emits normalized_event
             (responses_http_generate api_key prompt duration resolution model)).
Proof.
  intros H.
  pose (s0 := Scripted.start true Scenario.responses_raw).
  specialize (H (Scripted.runtime true) "sk-test" "a cat" (Some 5) (Some "640x360") None
                s0 _ _ (surjective_pairing _)).
  destruct H as (l & El & Fl).
  vm_compute in El. subst l.
  inversion Fl as [|te l' Hhead _]; subst.
  vm_compute in Hhead. discriminate Hhead.
Qed.

(** C2, amended. Every call made by the SDK strategy (of the script and of
    the web application) and by the legacy multipart strategy carries only
    allowed values: the seconds, when sent, are "4", "8" or "12" and the
    size is one of the allowed sizes. The Responses strategy starts by
    posting the parsed width and height and the requested duration as
    they were given. *)
Theorem provider_calls_normalized {RT : Runtime} (fuel : nat)
    (api_key prompt : string) (duration : option Z) (resolution : option string)
    (model : option string) (app_model : string) (image : option string) :
  emits normalized_event
        (try_sdk_generate api_key prompt duration resolution model) /\
  emits normalized_event
        (http_fallback_generate fuel api_key prompt duration resolution model) /\
  emits normalized_event
        (generate_video_sdk api_key prompt duration resolution app_model image) /\
  (forall s d w h,
     duration = Some d -> 0 < d ->
     parse_wh resolution = Some (w, h) -> w <> 0 -> h <> 0 ->
     exists body l,
       trace (snd (responses_http_generate api_key prompt duration resolution model s))
       = (trace s
            ++ (now (world s),
                EPost responses_endpoint (json_headers api_key) (JsonBody body) 90)
            :: l)%list /\
       body_video_specs body
       = [JObj [("width", JNum w); ("height", JNum h); ("duration", JNum d);
                ("format", JStr "mp4")]]).
Proof.
  assert (HP : accepts_sdk_calls normalized_event) by (intros e _ H; exact H).
  split; [now apply emits_try_sdk_generate|].
  split; [apply emits_http_fallback_generate|].
  split; [now apply emits_generate_video_sdk|].
  intros s d w h -> Hd Hp Hw Hh.
  destruct (responses_first_call api_key prompt (Some d) resolution model s) as (l & El).
  exists (responses_body prompt (Some d) resolution model), l.
  split; [exact El | now apply responses_body_raw].
Qed.

Lemma provider_calls_normalized_witness :
  let s0 := Scripted.start true Scenario.responses_raw in
  let s1 := Scripted.start true Scenario.fail_fail_succeed in
  extends (fun te => normalized_event (snd te) = true) s1
          (snd (try_sdk_generate "sk-test" "a cat" (Some 7) (Some "1920x1080") None s1)) /\
  exists body l,
    trace (snd (responses_http_generate "sk-test" "a cat" (Some 5) (Some "640x360")
                                        None s0))
    = (trace s0
         ++ (now (world s0),
             EPost responses_endpoint (json_headers "sk-test") (JsonBody body) 90)
         :: l)%list /\
    body_video_specs body
    = [JObj [("width", JNum 640); ("height", JNum 360); ("duration", JNum 5);
             ("format", JStr "mp4")]].
Proof.
  intros s0 s1. split.
  - apply (proj1 (provider_calls_normalized (RT := Scripted.runtime true) 0 "sk-test"
                    "a cat" (Some 7) (Some "1920x1080") None "sora-2" None)
             s1 _ _ (surjective_pairing _)).
  - apply (proj2 (proj2 (proj2
             (provider_calls_normalized (RT := Scripted.runtime true) 0 "sk-test" "a cat"
                (Some 5) (Some "640x360") None "sora-2" None))) s0 5 640 360);
      [reflexivity | lia | reflexivity | lia | lia].
Defined.

(** ** Outcomes *)

Section Outcomes.

Context {RT : Runtime}.






End Outcomes.


Section SdkOutcome.

Context {RT : Runtime}.






End SdkOutcome.

(** ** C3: the order of the strategies *)

Section Chain.

Context {RT : Runtime}.






End Chain.


(** The run of the spec's ordering test: retryable failure, retryable
    failure, success. *)
Example fail_fail_succeed_run :
  let run := main (RT := Scripted.runtime true) 4 "sk-test" Scenario.demo_args
                  (Scripted.start true Scenario.fail_fail_succeed) in
  fst run = Val tt /\
  provider_calls (Scripted.events (snd run))
  = ["OpenAI"; "videos.create_and_poll"; "videos.create";
     "POST https://api.openai.com/v1/responses";
     "POST https://api.openai.com/v1/videos";
     "GET https://cdn.example/v.mp4"] /\
  In (EWrite "out.mp4" Scenario.video) (Scripted.events (snd run)).
Proof.
  vm_compute. repeat split. tauto.
Qed.

(** ** C1: a verification failure *)

(** C1 (what the code does). The SDK fails with a message that contains
    "must be verified"; the notice is printed, the strategy returns [None],
    and [main] goes on to post to the Responses endpoint and to the legacy
    endpoint before it exits with status 3. *)
Theorem verification_failure_continues_chain :
  let run := main (RT := Scripted.runtime true) 4 "sk-test" Scenario.demo_args
                  (Scripted.start true Scenario.unverified) in
  is_verification_error (PyExc "PermissionDeniedError" Scenario.verification_message)
  = true /\
  fst run = Raise (PyExc "SystemExit" "3") /\
  provider_calls (Scripted.events (snd run))
  = ["OpenAI"; "videos.create_and_poll";
     "POST https://api.openai.com/v1/responses";
     "POST https://api.openai.com/v1/videos"] /\
  In (EPrint (MsgText "Organization verification required!"))
     (Scripted.events (snd run)).
Proof.
  vm_compute. repeat split. tauto.
Qed.

(** ** C8: a media URL that cannot be fetched *)

(** C8 (what the code does). When the download of the media URL answers
    404, the SDK strategy and the Responses strategy return [None]; the
    legacy strategy lets the [HTTPError] escape, and [main] ends with it. *)
Theorem legacy_fetch_failure_raises :
  fst (try_sdk_generate (RT := Scripted.runtime true) "sk-test" "a cat" (Some 8)
         (Some "1280x720") None (Scripted.start true Scenario.sdk_url_404))
  = Val None /\
  fst (responses_http_generate (RT := Scripted.runtime false) "sk-test" "a cat"
         (Some 8) (Some "1280x720") None
         (Scripted.start false Scenario.responses_url_404))
  = Val None /\
  let run := main (RT := Scripted.runtime false) 4 "sk-test" Scenario.demo_args
                  (Scripted.start false Scenario.legacy_url_404) in
  fst run = Raise (PyExc "HTTPError" "404") /\
  provider_calls (Scripted.events (snd run))
  = ["POST https://api.openai.com/v1/responses";
     "POST https://api.openai.com/v1/videos";
     "GET https://cdn.example/v.mp4"].
Proof.
  vm_compute. repeat split.
Qed.

(** ** C7: the poller *)


Lemma Qnat_nonneg (n : nat) : (0 <= Qnat n)%Q.
Proof.
  unfold Qnat. change 0%Q with (inject_Z 0). rewrite <- Zle_Qle. lia.
Qed.


Lemma Qltb_true (a b : Q) : Qltb a b = true <-> (a < b)%Q.
Proof.
  unfold Qltb. rewrite negb_true_iff. split.
  - intros H. apply Qnot_le_lt. intros Hle.
    apply Qle_bool_iff in Hle. congruence.
  - intros H. destruct (Qle_bool b a) eqn:E; [|reflexivity].
    apply Qle_bool_iff in E. exfalso. eapply Qlt_not_le; eassumption.
Qed.

Lemma Qltb_false (a b : Q) : Qltb a b = false <-> (b <= a)%Q.
Proof.
  unfold Qltb. rewrite negb_false_iff. apply Qle_bool_iff.
Qed.

Section Poller.

Context {RT : Runtime}.




Lemma emits_poll_result P r dt :
  accepts_sdk_calls P -> emits P (poll_result r dt).
Proof.
  intros HP. unfold poll_result, resp_json.
  emits_with ltac:(cbn [snd]; apply HP; reflexivity).
Qed.






Lemma polled_within_refl n deadline s : polled_within n deadline s s.
Proof.
  exists []. split; [now rewrite app_nil_r | split; [constructor | cbn; lia]].
Qed.

(** One unfolding of the loop. *)
Lemma http_poll_loop_turn fuel api_key status_url deadline dt s :
  http_poll_loop (S fuel) api_key status_url deadline dt s
  = if Qltb (now (world s)) deadline then
      match poll_once api_key status_url dt s with
      | (Val (Return j), s1) => (Val j, s1)
      | (Val (Continue _), s1) =>
          http_poll_loop fuel api_key status_url deadline dt s1
      | (Raise e, s1) => (Raise e, s1)
      | (OutOfFuel, s1) => (OutOfFuel, s1)
      end
    else (Val JNull, record timed_out_line s (world s)).
Proof.
  cbn [http_poll_loop]. unfold bind at 1, time_time.
  destruct (Qltb (now (world s)) deadline); [|reflexivity].
  unfold bind at 1.
  destruct (poll_once api_key status_url dt s) as [[[j|x]|e|] s1]; reflexivity.
Qed.









End Poller.





(** The run of the spec's poller test: pending, pending, succeeded gives
    the media URL after exactly three polls. *)
Example pending_pending_succeeded_run :
  let run := http_poll (RT := Scripted.runtime false) 10 "sk-test"
                       (JStr Scenario.status_url) 600 2
                       (Scripted.start false Scenario.pending_pending_succeeded) in
  fst run = Val (JStr "https://cdn.example/v.mp4") /\
  count_gets (trace (snd run)) = 3%nat.
Proof.
  vm_compute. split; reflexivity.
Qed.

(** A job that never finishes, polled with a 3 second timeout and a 2
    second interval while each fetch takes 1 second: one fetch, one sleep,
    then the time-out. *)
Example always_pending_run :
  let running := Steady.status_answer "running" in
  let run := http_poll (RT := Steady.runtime running) 10 "sk-test"
                       (JStr Scenario.status_url) 3 2 (Steady.start running 0) in
  fst run = Val JNull /\
  map snd (trace (snd run))
  = [EGet Scenario.status_url (json_headers "sk-test") 30; ESleep 2; timed_out_line].
Proof.
  vm_compute. split; reflexivity.
Qed.

(** ** C9: the reference image *)

Section Image.

Context {RT : Runtime}.



End Image.


(** The run of the spec's image test: the call with the image is refused,
    the call without it succeeds, and its video is downloaded. *)
Example image_refused_run :
  let run := generate_video_sdk (RT := Scripted.runtime true) "sk-test" "a cat"
               (Some 4) (Some "1280x720") "sora-2" (Some "videos/input_1.jpg")
               (Scripted.start true Scenario.image_refused) in
  fst run = Val (Some Scenario.video) /\
  provider_calls (Scripted.events (snd run))
  = ["OpenAI"; "videos.create_and_poll"; "videos.create_and_poll";
     "videos.download_content"].
Proof.
  vm_compute. split; reflexivity.
Qed.

(** * Further properties of the code *)

(** ** Rendering and parsing integers *)









Lemma starts_with_app (p s : string) : Py.starts_with p (p ++ s) = true.
Proof.
  induction p as [|c r IH]; [reflexivity|]. cbn [Py.starts_with String.append].
  now rewrite Ascii.eqb_refl, IH.
Qed.

Lemma contains_app (a n b : string) : Py.contains n (a ++ n ++ b) = true.
Proof.
  induction a as [|c r IH].
  - cbn [String.append]. destruct (n ++ b) eqn:E; cbn [Py.contains];
      rewrite <- E, starts_with_app; reflexivity.
  - cbn [String.append Py.contains]. rewrite IH. apply orb_true_r.
Qed.

Lemma uint_digits_numeral (d : Decimal.uint) :
  all_chars is_numeral_char (NilEmpty.string_of_uint d) = true.
Proof. induction d; cbn; auto. Qed.



Lemma str_numeral (n : Z) : all_chars is_numeral_char (Py.str n) = true.
Proof.
  unfold Py.str. destruct n as [|p|p]; cbn [Z.to_int NilZero.string_of_int].
  - reflexivity.
  - unfold NilZero.string_of_uint.
    destruct (Pos.to_uint p); apply uint_digits_numeral || reflexivity.
  - cbn [all_chars]. unfold NilZero.string_of_uint.
    destruct (Pos.to_uint p); apply uint_digits_numeral || reflexivity.
Qed.





(** ** Duration buckets *)

(** X2. The bucket of every integer duration, negative ones included: "4"
    up to 6, "8" from 7 to 10, "12" from 11 on; so the bucket never
    decreases when the request grows. *)
Theorem bucket_seconds_thresholds (d : Z) :
  bucket_seconds (Some d)
  = (if d <=? 6 then "4" else if d <=? 10 then "8" else "12") /\
  (forall d', d <= d' -> bucket_target (Some d) <= bucket_target (Some d')).
Proof.
  assert (Ht : forall x, bucket_target (Some x)
                         = if x <=? 6 then 4 else if x <=? 10 then 8 else 12).
  { intros x. unfold bucket_target, duration_or_4, Py.truthy; cbn [Py.min_from].
    destruct (Z.eqb_spec x 0) as [->|Hx]; [reflexivity|]. cbn [negb].
    repeat match goal with
           | |- context [?a <? ?b] => destruct (Z.ltb_spec a b)
           | |- context [?a <=? ?b] => destruct (Z.leb_spec a b)
           end; lia. }
  split.
  - unfold bucket_seconds. rewrite Ht.
    destruct (d <=? 6); [reflexivity|]. destruct (d <=? 10); reflexivity.
  - intros d' Hle. rewrite !Ht.
    repeat match goal with
           | |- context [?a <=? ?b] => destruct (Z.leb_spec a b)
           end; lia.
Qed.

Lemma bucket_seconds_thresholds_witness :
  bucket_target (Some (-3)) <= bucket_target (Some 9).
Proof.
  apply (proj2 (bucket_seconds_thresholds (-3)) 9). lia.
Defined.

(** ** What each strategy may do *)

Section Footprints.

Context {RT : Runtime}.

Lemma sdk_strategy_footprint P api_key prompt duration resolution model :
  (forall e, sdk_footprint e = true -> P e = true) ->
  emits P (try_sdk_generate api_key prompt duration resolution model).
Proof.
  intros HP. unfold try_sdk_generate, sdk_create_then_poll.
  pose proof (emits_verification_notice P (fun m => HP (EPrint m) eq_refl)) as Hn.
  pose proof (fun c v => emits_sdk_download P c v (fun x => HP (EDownload x) eq_refl))
    as Hd.
  pose proof (fun v k => emits_sdk_url_fields P v k
                           (fun u h t => HP (EGet u h t) eq_refl)) as Hu.
  unfold emits in *.
  repeat lazymatch goal with
         | |- preserves _ verification_notice => exact Hn
         | |- preserves _ (sdk_download _ _) => apply Hd
         | |- preserves _ (sdk_url_fields _ _) => apply Hu
         | |- _ => emits_step ltac:(cbn [snd]; apply HP; reflexivity)
         end.
Qed.

Lemma app_strategy_footprint P api_key prompt duration resolution model image :
  (forall e, app_footprint e = true -> P e = true) ->
  emits P (generate_video_sdk api_key prompt duration resolution model image).
Proof.
  intros HP. unfold generate_video_sdk, create_with_image, extract_video.
  pose proof (fun c v => emits_sdk_download P c v (fun x => HP (EDownload x) eq_refl))
    as Hd.
  pose proof (fun v k => emits_sdk_url_fields P v k
                           (fun u h t => HP (EGet u h t) eq_refl)) as Hu.
  unfold emits in *.
  repeat lazymatch goal with
         | |- preserves _ (sdk_download _ _) => apply Hd
         | |- preserves _ (sdk_url_fields _ _) => apply Hu
         | |- preserves _ (fun s => (Val _, s)) =>
             intros ? ? ? Hrun; inversion Hrun; subst; apply extends_refl
         | |- _ => emits_step ltac:(cbn [snd]; apply HP; reflexivity)
         end.
Qed.

Lemma responses_result_footprint P r :
  (forall e, fetch_footprint e = true -> P e = true) ->
  emits P (responses_result r).
Proof.
  intros HP. unfold responses_result, responses_extract, resp_json.
  pose proof (fun p => emits_responses_parts P p
                         (fun u h t => HP (EGet u h t) eq_refl)) as Hp.
  unfold emits in *.
  repeat lazymatch goal with
         | |- preserves _ (responses_parts _) => apply Hp
         | |- _ => emits_step ltac:(cbn [snd]; apply HP; reflexivity)
         end.
Qed.

Lemma http_poll_footprint P fuel api_key status_url timeout dt :
  (forall e, after_post_footprint e = true -> P e = true) ->
  emits P (http_poll fuel api_key status_url timeout dt).
Proof.
  intros HP.
  assert (Hloop : forall deadline,
             emits P (http_poll_loop fuel api_key status_url deadline dt)).
  { intros deadline. induction fuel as [|fuel IH]; cbn [http_poll_loop];
      unfold poll_once, poll_result, requests_get, resp_json; unfold emits in *;
      repeat lazymatch goal with
             | |- preserves _ (http_poll_loop _ _ _ _ _) => exact IH
             | |- _ => emits_step ltac:(cbn [snd]; apply HP; reflexivity)
             end. }
  unfold http_poll. unfold emits in *.
  repeat lazymatch goal with
         | |- preserves _ (http_poll_loop _ _ _ _ _) => apply Hloop
         | |- _ => emits_step idtac
         end.
Qed.

Lemma legacy_result_footprint P fuel api_key r :
  (forall e, after_post_footprint e = true -> P e = true) ->
  emits P (legacy_result fuel api_key r).
Proof.
  intros HP. unfold legacy_result, create_error_notice.
  pose proof (emits_verification_notice P (fun m => HP (EPrint m) eq_refl)) as Hn.
  pose proof (fun u t => emits_fetch_content P u t
                           (fun u h t => HP (EGet u h t) eq_refl)) as Hf.
  pose proof (fun k u t i => http_poll_footprint P fuel k u t i HP) as Hp.
  unfold emits in *.
  repeat lazymatch goal with
         | |- preserves _ verification_notice => exact Hn
         | |- preserves _ (fetch_content _ _) => apply Hf
         | |- preserves _ (http_poll _ _ _ _ _) => apply Hp
         | |- _ => emits_step ltac:(cbn [snd]; apply HP; reflexivity)
         end.
Qed.

(** A computation that starts with an external call records it first, and
    then only what its continuation records. *)
Lemma first_call_then {A B} P (ev : Event) (op : World -> (exn + A) * World)
    (k : A -> M B) (s : State) :
  (forall a, emits P (k a)) ->
  exists l, trace (snd (bind (call ev op) k s))
            = (trace s ++ (now (world s), ev) :: l)%list /\
            Forall (fun te => P (snd te) = true) l.
Proof.
  intros Hk. unfold bind, call.
  destruct (op (world s)) as [[e|a] w']; cbn [lift raise ret].
  - exists []. split; [reflexivity | constructor].
  - destruct (Hk a (record ev s w') _ _ (surjective_pairing _)) as (l & El & Fl).
    exists l. split; [|exact Fl].
    destruct (k a (record ev s w')) as [[v|e|] s']; cbn [snd] in *;
      rewrite El; cbn [record trace]; now rewrite <- app_assoc.
Qed.

End Footprints.

(** X3. The SDK strategy of the script only talks to the SDK, fetches URLs
    and prints: it never posts, sleeps or touches a file. The SDK path of
    the web application does the same without ever calling
    [videos.create] or [videos.poll]; the only files it touches are the
    image it opens and closes. *)
Theorem sdk_strategies_footprint {RT : Runtime} (api_key prompt : string)
    (duration : option Z) (resolution : option string) (model : option string)
    (app_model : string) (image : option string) :
  emits sdk_footprint (try_sdk_generate api_key prompt duration resolution model) /\
  emits app_footprint
        (generate_video_sdk api_key prompt duration resolution app_model image).
Proof.
  split.
  - apply sdk_strategy_footprint. auto.
  - apply app_strategy_footprint. auto.
Qed.

Lemma sdk_strategies_footprint_witness :
  let s0 := Scripted.start true Scenario.fail_fail_succeed in
  let s1 := Scripted.start true Scenario.image_refused in
  extends (fun te => sdk_footprint (snd te) = true) s0
          (snd (try_sdk_generate "sk-test" "a cat" (Some 8) (Some "1280x720") None s0)) /\
  extends (fun te => app_footprint (snd te) = true) s1
          (snd (generate_video_sdk "sk-test" "a cat" (Some 4) (Some "1280x720")
                  "sora-2" (Some "videos/input_1.jpg") s1)).
Proof.
  intros s0 s1. split.
  - apply (proj1 (sdk_strategies_footprint (RT := Scripted.runtime true) "sk-test"
                    "a cat" (Some 8) (Some "1280x720") None "sora-2" None)
             s0 _ _ (surjective_pairing _)).
  - apply (proj2 (sdk_strategies_footprint (RT := Scripted.runtime true) "sk-test"
                    "a cat" (Some 4) (Some "1280x720") None "sora-2"
                    (Some "videos/input_1.jpg"))
             s1 _ _ (surjective_pairing _)).
Defined.

(** X4. Each HTTP strategy submits exactly once, and first: the Responses
    strategy posts its JSON body to the responses endpoint and afterwards
    only fetches and prints; the legacy strategy posts its multipart form
    to the videos endpoint and afterwards only fetches, sleeps and prints.
    Neither retries its submission, calls the SDK or writes a file. *)
Theorem http_strategies_submit_once {RT : Runtime} (fuel : nat)
    (api_key prompt : string) (duration : option Z) (resolution : option string)
    (model : option string) (s : State) :
  (exists l,
     trace (snd (responses_http_generate api_key prompt duration resolution model s))
     = (trace s
          ++ (now (world s),
              EPost responses_endpoint (json_headers api_key)
                    (JsonBody (responses_body prompt duration resolution model)) 90)
          :: l)%list /\
     Forall (fun te => fetch_footprint (snd te) = true) l) /\
  (exists l,
     trace (snd (http_fallback_generate fuel api_key prompt duration resolution model s))
     = (trace s
          ++ (now (world s),
              EPost videos_endpoint (legacy_headers api_key)
                    (Multipart (files_payload prompt duration resolution model)) 120)
          :: l)%list /\
     Forall (fun te => after_post_footprint (snd te) = true) l).
Proof.
  split.
  - unfold responses_http_generate, requests_post.
    apply first_call_then. intros r. apply responses_result_footprint. auto.
  - unfold http_fallback_generate, requests_post.
    apply first_call_then. intros r. apply legacy_result_footprint. auto.
Qed.

(** ** What [main] writes and how it ends *)

Section MainOutcome.

Context {RT : Runtime}.

Lemma footprint_write_ok out (F : Event -> bool) :
  (forall p d, F (EWrite p d) = false) ->
  forall e, F e = true -> write_ok out e = true.
Proof.
  intros HF e He. destruct e; try reflexivity. now rewrite HF in He.
Qed.

Lemma finish_write_ok out vb : emits (write_ok out) (finish out vb).
Proof.
  unfold finish, save_binary.
  destruct vb as [[|b0 b]|]; cbn [bytes_falsy];
    emits_with ltac:(cbn [snd write_ok is_empty negb andb];
                     rewrite ?String.eqb_refl; reflexivity).
Qed.

Lemma main_write_ok fuel env_key args :
  emits (write_ok (arg_out args)) (main fuel env_key args).
Proof.
  unfold main, load_api_key, requests_post.
  pose proof (fun k p d r m =>
                sdk_strategy_footprint (write_ok (arg_out args)) k p d r m
                  (footprint_write_ok _ sdk_footprint (fun _ _ => eq_refl))) as Hsdk.
  pose proof (fun r => responses_result_footprint (write_ok (arg_out args)) r
                         (footprint_write_ok _ fetch_footprint (fun _ _ => eq_refl)))
    as Hresp.
  pose proof (fun f k r => legacy_result_footprint (write_ok (arg_out args)) f k r
                             (footprint_write_ok _ after_post_footprint
                                (fun _ _ => eq_refl))) as Hleg.
  pose proof (finish_write_ok (arg_out args)) as Hfin.
  unfold responses_http_generate, http_fallback_generate, requests_post.
  unfold emits in *.
  repeat lazymatch goal with
         | |- preserves _ (try_sdk_generate _ _ _ _ _) => apply Hsdk
         | |- preserves _ (responses_result _) => apply Hresp
         | |- preserves _ (legacy_result _ _ _) => apply Hleg
         | |- preserves _ (finish _ _) => apply Hfin
         | |- _ => emits_step ltac:(reflexivity)
         end.
Qed.

Lemma trace_grows {A} (m : M A) s r s' :
  emits (fun _ => true) m -> m s = (r, s') ->
  exists l, trace s' = (trace s ++ l)%list.
Proof.
  intros Hm Hrun. destruct (Hm s r s' Hrun) as (l & El & _). now exists l.
Qed.

(** The strategy chain of [main], up to the bytes handed to [finish]. *)
Lemma main_chain_then_finish fuel env_key args s :
  (exists vb s3,
     (api_key <- load_api_key env_key ;;
      vb1 <- try_sdk_generate api_key (arg_prompt args) (Some (arg_duration args))
               (Some (arg_resolution args)) (arg_model args) ;;
      vb2 <- (match vb1 with
              | None => responses_http_generate api_key (arg_prompt args)
                          (Some (arg_duration args)) (Some (arg_resolution args))
                          (arg_model args)
              | Some _ => ret vb1
              end) ;;
      match vb2 with
      | None => http_fallback_generate fuel api_key (arg_prompt args)
                  (Some (arg_duration args)) (Some (arg_resolution args))
                  (arg_model args)
      | Some _ => ret vb2
      end) s = (Val vb, s3) /\
     main fuel env_key args s = finish (arg_out args) vb s3) \/
  (forall v, fst (main fuel env_key args s) <> Val v).
Proof.
  unfold main, bind.
  destruct (load_api_key env_key s) as [[api_key|e|] s1];
    [|right; cbn; discriminate ..].
  destruct (try_sdk_generate api_key _ _ _ _ s1) as [[vb1|e|] s2];
    [|right; cbn; discriminate ..].
  assert (Hlast : forall vb2 s3,
             (exists vb s4,
                match vb2 with
                | Some _ => ret vb2
                | None => http_fallback_generate fuel api_key (arg_prompt args)
                            (Some (arg_duration args)) (Some (arg_resolution args))
                            (arg_model args)
                end s3 = (Val vb, s4) /\
                (let (r, s') :=
                   match vb2 with
                   | Some _ => ret vb2
                   | None => http_fallback_generate fuel api_key (arg_prompt args)
                               (Some (arg_duration args)) (Some (arg_resolution args))
                               (arg_model args)
                   end s3 in
                 match r with
                 | Val a => finish (arg_out args) a s'
                 | Raise e => (Raise e, s')
                 | OutOfFuel => (OutOfFuel, s')
                 end) = finish (arg_out args) vb s4) \/
             (forall v,
                fst (let (r, s') :=
                       match vb2 with
                       | Some _ => ret vb2
                       | None => http_fallback_generate fuel api_key (arg_prompt args)
                                   (Some (arg_duration args))
                                   (Some (arg_resolution args)) (arg_model args)
                       end s3 in
                     match r with
                     | Val a => finish (arg_out args) a s'
                     | Raise e => (Raise e, s')
                     | OutOfFuel => (OutOfFuel, s')
                     end) <> Val v)).
  { intros vb2 s3.
    destruct (match vb2 with
              | Some _ => ret vb2
              | None => http_fallback_generate fuel api_key _ _ _ _
              end s3) as [[vb3|e|] s4];
      [|right; cbn; discriminate ..].
    left. exists vb3, s4. split; reflexivity. }
  destruct (match vb1 with
            | Some _ => ret vb1
            | None => responses_http_generate api_key _ _ _ _
            end s2) as [[vb2|e|] s3];
    [|right; cbn; discriminate ..].
  apply Hlast.
Qed.

Lemma main_chain_grows fuel env_key args :
  emits (fun _ => true)
    (api_key <- load_api_key env_key ;;
     vb1 <- try_sdk_generate api_key (arg_prompt args) (Some (arg_duration args))
              (Some (arg_resolution args)) (arg_model args) ;;
     vb2 <- (match vb1 with
             | None => responses_http_generate api_key (arg_prompt args)
                         (Some (arg_duration args)) (Some (arg_resolution args))
                         (arg_model args)
             | Some _ => ret vb1
             end) ;;
     match vb2 with
     | None => http_fallback_generate fuel api_key (arg_prompt args)
                 (Some (arg_duration args)) (Some (arg_resolution args))
                 (arg_model args)
     | Some _ => ret vb2
     end).
Proof.
  unfold load_api_key, responses_http_generate, http_fallback_generate, requests_post.
  pose proof (fun k p d r m =>
                sdk_strategy_footprint (fun _ => true) k p d r m (fun _ _ => eq_refl))
    as Hsdk.
  pose proof (fun r => responses_result_footprint (fun _ => true) r
                         (fun _ _ => eq_refl)) as Hresp.
  pose proof (fun f k r => legacy_result_footprint (fun _ => true) f k r
                             (fun _ _ => eq_refl)) as Hleg.
  unfold emits in *.
  repeat lazymatch goal with
         | |- preserves _ (try_sdk_generate _ _ _ _ _) => apply Hsdk
         | |- preserves _ (responses_result _) => apply Hresp
         | |- preserves _ (legacy_result _ _ _) => apply Hleg
         | |- _ => emits_step ltac:(reflexivity)
         end.
Qed.

(** X5. Whatever the provider answers, the only file [main] writes is the
    requested output path, and only with a non-empty video: an empty or
    missing result is never saved. When [main] ends normally, the video
    has been written. *)
Theorem main_saves_only_video (fuel : nat) (env_key : string) (args : Args)
    (s : State) :
  let run := main fuel env_key args s in
  exists l,
    trace (snd run) = (trace s ++ l)%list /\
    (forall t p d, In (t, EWrite p d) l -> p = arg_out args /\ d <> []) /\
    (fst run = Val tt -> exists t d, In (t, EWrite (arg_out args) d) l).
Proof.
  intros run.
  destruct (main_write_ok fuel env_key args s _ _ (surjective_pairing _))
    as (l & El & Fl).
  exists l. split; [exact El|]. split.
  - intros t p d Hin. rewrite Forall_forall in Fl. specialize (Fl _ Hin).
    cbn [snd write_ok] in Fl. apply andb_true_iff in Fl as (Hp & Hd).
    apply String.eqb_eq in Hp. split; [exact Hp|].
    intros ->. discriminate Hd.
  - intros Hok. subst run.
    destruct (main_chain_then_finish fuel env_key args s) as [(vb & s3 & Ech & Efin) | Hno].
    2: { rewrite Hok in Hno. now contradiction (Hno tt). }
    destruct (trace_grows _ _ _ _ (main_chain_grows fuel env_key args) Ech) as (l3 & El3).
    rewrite Efin in El, Hok.
    unfold finish in El, Hok |- *.
    destruct (bytes_falsy vb) eqn:Efalsy.
    { discriminate Hok. }
    unfold save_binary, bind, call, print in El, Hok.
    destruct (fs_write (arg_out args) match vb with Some b => b | None => [] end
                       (world s3)) as [[e|[]] w'] eqn:Ew;
      cbn [lift raise ret fst snd] in El, Hok; [discriminate Hok|].
    cbn [record trace world] in El. rewrite El3 in El.
    rewrite <- !app_assoc in El. apply app_inv_head in El. subst l.
    exists (now (world s3)), (match vb with Some b => b | None => [] end).
    apply in_or_app. right. left. reflexivity.
Qed.

End MainOutcome.

Lemma lstrip_blank (s : string) :
  all_chars Py.is_space s = true -> Py.lstrip s = "".
Proof.
  induction s as [|c r IH]; [reflexivity|]. cbn [all_chars Py.lstrip].
  intros H. apply andb_true_iff in H as (Hc & Hr). rewrite Hc. now apply IH.
Qed.

(** X6. With [OPENAI_API_KEY] unset, empty or made of white space only,
    [main] prints the hint and exits with status 2: no strategy runs and
    nothing is sent or written. *)
Theorem main_without_key {RT : Runtime} (fuel : nat) (env_key : string)
    (args : Args) (s : State) :
  all_chars Py.is_space env_key = true ->
  main fuel env_key args s
  = (Raise (PyExc "SystemExit" "2"),
     record (EPrint (MsgText "Missing OPENAI_API_KEY. Put it in .env or export it."))
            s (world s)).
Proof.
  intros Hblank. unfold main, load_api_key, Py.strip.
  rewrite (lstrip_blank env_key Hblank). reflexivity.
Qed.

Lemma main_without_key_witness :
  fst (main (RT := Scripted.runtime true) 4 "  " Scenario.demo_args
            (Scripted.start true Scenario.fail_fail_succeed))
  = Raise (PyExc "SystemExit" "2").
Proof.
  rewrite (main_without_key (RT := Scripted.runtime true) 4 "  " Scenario.demo_args
             (Scripted.start true Scenario.fail_fail_succeed) eq_refl).
  reflexivity.
Defined.

(** X7. [main] fails with status 3 and a single line in two ways. When the
    three strategies all return [None], after the third. When the SDK
    strategy returns an empty bytes value, at once: the value is not
    [None], so neither HTTP strategy is tried, and it is empty, so nothing
    is saved. *)
Theorem main_failure_exits {RT : Runtime} (fuel : nat) (env_key : string)
    (args : Args) (s0 : State) :
  let api_key := Py.strip env_key in
  let duration := Some (arg_duration args) in
  let resolution := Some (arg_resolution args) in
  let failed := fun s =>
    (Raise (PyExc "SystemExit" "3") : result unit,
     record (EPrint (MsgText "Video generation failed. See messages above."))
            s (world s)) in
  api_key <> "" ->
  (forall s1 s2 s3,
     try_sdk_generate api_key (arg_prompt args) duration resolution (arg_model args) s0
     = (Val None, s1) ->
     responses_http_generate api_key (arg_prompt args) duration resolution
                             (arg_model args) s1 = (Val None, s2) ->
     http_fallback_generate fuel api_key (arg_prompt args) duration resolution
                            (arg_model args) s2 = (Val None, s3) ->
     main fuel env_key args s0 = failed s3) /\
  (forall s1,
     try_sdk_generate api_key (arg_prompt args) duration resolution (arg_model args) s0
     = (Val (Some []), s1) ->
     main fuel env_key args s0 = failed s1).
Proof.
  intros api_key duration resolution failed Hkey.
  apply String.eqb_neq in Hkey.
  split.
  - intros s1 s2 s3 E1 E2 E3. unfold main, load_api_key. fold api_key.
    rewrite Hkey. unfold bind, ret. fold duration resolution.
    rewrite E1, E2, E3. reflexivity.
  - intros s1 E1. unfold main, load_api_key. fold api_key.
    rewrite Hkey. unfold bind, ret. fold duration resolution.
    rewrite E1. reflexivity.
Qed.

Lemma main_failure_exits_witness :
  let run := main (RT := Scripted.runtime true) 4 "sk-test" Scenario.demo_args
                  (Scripted.start true Scenario.sdk_empty_download) in
  fst run = Raise (PyExc "SystemExit" "3") /\
  provider_calls (Scripted.events (snd run))
  = ["OpenAI"; "videos.create_and_poll"; "videos.download_content"].
Proof.
  intros run. subst run.
  rewrite (proj2 (main_failure_exits (RT := Scripted.runtime true) 4 "sk-test"
                    Scenario.demo_args
                    (Scripted.start true Scenario.sdk_empty_download)
                    ltac:(discriminate))
             (snd (try_sdk_generate (RT := Scripted.runtime true) "sk-test" "a cat"
                     (Some 8) (Some "1280x720") None
                     (Scripted.start true Scenario.sdk_empty_download)))
             eq_refl).
  split; reflexivity.
Defined.


(** ** Edges of the poller *)

(** X9. The poller gives up at once in two cases. With a timeout of zero
    or less it makes no status fetch at all: it prints the time-out line
    and returns [None]. And in any turn, a status answer of 400 or above
    ends the polling: the error is printed and [None] is returned without
    looking at the body or fetching again. *)
Theorem http_poll_gives_up {RT : Runtime} (fuel : nat) (api_key : string)
    (poll_interval : Q) :
  (forall status_url timeout_seconds s,
     timeout_seconds <= 0 ->
     http_poll (S fuel) api_key status_url timeout_seconds poll_interval s
     = (Val JNull, record timed_out_line s (world s))) /\
  (forall u deadline s r w',
     (now (world s) < deadline)%Q ->
     http_get u (json_headers api_key) 30 (world s) = (inr r, w') ->
     400 <= status_code r ->
     http_poll_loop (S fuel) api_key (JStr u) deadline poll_interval s
     = (Val JNull,
        record (EPrint (MsgHttp "Polling error" (status_code r) (text r)))
               (record (EGet u (json_headers api_key) 30) s w') w')).
Proof.
  split.
  - intros status_url timeout_seconds s Hto.
    unfold http_poll. unfold bind at 1, time_time.
    rewrite http_poll_loop_turn.
    replace (Qltb (now (world s)) (now (world s) + inject_Z timeout_seconds)) with false;
      [reflexivity|].
    symmetry. apply Qltb_false.
    assert (H0 : (inject_Z timeout_seconds <= 0)%Q)
      by (change 0%Q with (inject_Z 0); now rewrite <- Zle_Qle).
    lra.
  - intros u deadline s r w' Hnow Eget Hst.
    rewrite http_poll_loop_turn. apply Qltb_true in Hnow. rewrite Hnow.
    unfold poll_once, requests_get, bind, call. rewrite Eget. cbn [lift ret].
    unfold poll_result.
    replace (status_code r >=? 400) with true
      by (symmetry; rewrite Z.geb_leb; apply Z.leb_le; lia).
    reflexivity.
Qed.

Lemma http_poll_gives_up_witness :
  let running := Steady.status_answer "running" in
  http_poll (RT := Steady.runtime running) 1 "sk-test" (JStr Scenario.status_url)
            0 2 (Steady.start running 5)
  = (Val JNull, record timed_out_line (Steady.start running 5) 5%Q).
Proof.
  intros running.
  apply (proj1 (http_poll_gives_up (RT := Steady.runtime running) 0 "sk-test" 2)
           (JStr Scenario.status_url) 0 (Steady.start running 5)).
  lia.
Defined.

(** ** An answer that is not JSON *)

(** X10. A submission answered below 400 with a body that is not JSON is
    handled differently by the two HTTP strategies: the legacy strategy
    prints a line and returns [None]; the Responses strategy lets the
    decoding error escape, so that [main] ends with it and the legacy
    strategy is never tried. *)
Theorem non_json_answer {RT : Runtime} (fuel : nat) (api_key : string)
    (r : Response) (s : State) :
  status_code r < 400 -> json_body r = None ->
  legacy_result fuel api_key r s
  = (Val None, record (EPrint (MsgText "HTTP response was not JSON")) s (world s)) /\
  responses_result r s
  = (Raise (PyExc "JSONDecodeError" "response body is not JSON"), s) /\
  (forall env_key args s0 s1 w',
     Py.strip env_key = api_key -> api_key <> "" ->
     try_sdk_generate api_key (arg_prompt args) (Some (arg_duration args))
                      (Some (arg_resolution args)) (arg_model args) s0
     = (Val None, s1) ->
     http_post responses_endpoint (json_headers api_key)
               (JsonBody (responses_body (arg_prompt args) (Some (arg_duration args))
                                         (Some (arg_resolution args)) (arg_model args)))
               90 (world s1) = (inr r, w') ->
     exists s2,
       main fuel env_key args s0
       = (Raise (PyExc "JSONDecodeError" "response body is not JSON"), s2) /\
       trace s2
       = (trace s1
            ++ [(now (world s1),
                 EPost responses_endpoint (json_headers api_key)
                       (JsonBody (responses_body (arg_prompt args)
                                    (Some (arg_duration args))
                                    (Some (arg_resolution args)) (arg_model args)))
                       90)])%list).
Proof.
  intros Hst Hj.
  assert (Hlt : (status_code r >=? 400) = false)
    by (rewrite Z.geb_leb; apply Z.leb_gt; lia).
  split; [|split].
  - unfold legacy_result. rewrite Hlt, Hj. reflexivity.
  - unfold responses_result, resp_json. rewrite Hlt, Hj. reflexivity.
  - intros env_key args s0 s1 w' Hkey Hne E1 Epost.
    eexists. split.
    + unfold main, load_api_key. rewrite Hkey.
      apply String.eqb_neq in Hne. rewrite Hne.
      unfold bind at 1, ret. unfold bind at 1. rewrite E1.
      unfold bind at 1. unfold responses_http_generate, requests_post.
      unfold bind at 1, call. rewrite Epost. cbn [lift ret].
      unfold responses_result, resp_json. rewrite Hlt, Hj. reflexivity.
    + reflexivity.
Qed.

Lemma non_json_answer_witness :
  let s0 := Scripted.start false Scenario.not_json in
  exists s2 : @State (Scripted.runtime false),
    main 4 "sk-test" Scenario.demo_args s0
    = (Raise (PyExc "JSONDecodeError" "response body is not JSON"), s2) /\
    provider_calls (map snd (trace s2)) = ["POST https://api.openai.com/v1/responses"].
Proof.
  intros s0.
  destruct (proj2 (proj2 (non_json_answer (RT := Scripted.runtime false) 4 "sk-test"
                            (Scenario.reply 200 None []) s0
                            ltac:(cbn; lia) eq_refl))
              "sk-test" Scenario.demo_args s0 s0
              (snd (Scripted.do_post Scenario.not_json))
              eq_refl ltac:(discriminate) eq_refl) as (s2 & Erun & Etr).
  - reflexivity.
  - exists s2. split; [exact Erun|]. rewrite Etr. reflexivity.
Defined.

(** ** Inside the SDK strategy *)

Section SdkSteps.

Context {RT : Runtime}.

Lemma bind_call_val {A B} ev (op : World -> (exn + A) * World) (k : A -> M B) s a w' :
  op (world s) = (inr a, w') ->
  bind (call ev op) k s = k a (record ev s w').
Proof. intros E. unfold bind, call. rewrite E. reflexivity. Qed.

Lemma bind_call_raise {A B} ev (op : World -> (exn + A) * World) (k : A -> M B)
    s e w' :
  op (world s) = (inl e, w') ->
  bind (call ev op) k s = (Raise e, record ev s w').
Proof. intros E. unfold bind, call. rewrite E. reflexivity. Qed.

Lemma try_except_raise {A} (m : M A) (h : exn -> M A) s e s1 :
  m s = (Raise e, s1) -> try_except m h s = h e s1.
Proof. intros E. unfold try_except. now rewrite E. Qed.

Lemma try_except_val {A} (m : M A) (h : exn -> M A) s a s1 :
  m s = (Val a, s1) -> try_except m h s = (Val a, s1).
Proof. intros E. unfold try_except. now rewrite E. Qed.

Lemma bind_val {A B} (m : M A) (k : A -> M B) s a s1 :
  m s = (Val a, s1) -> bind m k s = k a s1.
Proof. intros E. unfold bind. now rewrite E. Qed.

Lemma bind_raise {A B} (m : M A) (k : A -> M B) s e s1 :
  m s = (Raise e, s1) -> bind m k s = (Raise e, s1).
Proof. intros E. unfold bind. now rewrite E. Qed.

(** X11. When [create_and_poll] fails with a text that contains "must be
    verified" or "403", the SDK strategy prints the three lines of advice
    and returns [None] without trying [videos.create]. The test is on the
    text alone: any message with "403" somewhere in it counts. *)
Theorem sdk_verification_stops_strategy (api_key prompt : string)
    (duration : option Z) (resolution : option string) (model : option string)
    (s : State) (client : Client) (w1 w2 : World) (e : exn) :
  let args := sdk_args (model_or_default model) prompt duration resolution
                       (Some 1000) None in
  sdk_present = true ->
  openai_new api_key (world s) = (inr client, w1) ->
  has_videos client = true ->
  videos_create_and_poll args w1 = (inl e, w2) ->
  (is_verification_error e = true ->
   exists s',
     try_sdk_generate api_key prompt duration resolution model s = (Val None, s') /\
     world s' = w2 /\
     map snd (trace s')
     = (map snd (trace s)
          ++ [EOpenAI api_key; ECreateAndPoll args;
              EPrint (MsgText "Organization verification required!");
              EPrint (MsgText "Visit: https://platform.openai.com/settings/organization/general");
              EPrint (MsgText "Click 'Verify Organization' and wait up to 15 minutes.")])%list) /\
  (forall kind a b,
     is_verification_error (PyExc kind (a ++ "403" ++ b)) = true /\
     is_verification_error (PyExc kind (a ++ "must be verified" ++ b)) = true).
Proof.
  intros args Hsdk Hnew Hvid Hcap. split.
  - intros Hver. eexists. split; [|split].
    + unfold try_sdk_generate. rewrite Hsdk. cbn [negb].
      unfold try_except at 1. unfold bind at 1. unfold call at 1.
      rewrite Hnew. cbn [lift ret]. rewrite Hvid.
      unfold bind at 1. unfold try_except at 1. unfold bind at 1. unfold call at 1.
      cbn [record world trace]. fold args. rewrite Hcap. cbn [lift raise].
      rewrite Hver. reflexivity.
    + reflexivity.
    + cbn [record trace verification_notice]. rewrite !map_app. cbn [map snd].
      rewrite <- !app_assoc. reflexivity.
  - intros kind a b. unfold is_verification_error, exn_str. split.
    + rewrite (contains_app a "403" b). apply orb_true_r.
    + now rewrite (contains_app a "must be verified" b).
Qed.

End SdkSteps.

Lemma sdk_verification_stops_strategy_witness :
  let s0 := Scripted.start true Scenario.unverified in
  exists s' : @State (Scripted.runtime true),
    try_sdk_generate "sk-test" "a cat" (Some 8) (Some "1280x720") None s0
    = (Val None, s') /\
    provider_calls (map snd (trace s')) = ["OpenAI"; "videos.create_and_poll"].
Proof.
  intros s0.
  edestruct (proj1 (sdk_verification_stops_strategy (RT := Scripted.runtime true)
                      "sk-test" "a cat" (Some 8) (Some "1280x720") None s0
                      Scenario.ok_client _ _ _ eq_refl eq_refl eq_refl eq_refl)
               eq_refl) as (s' & Erun & _ & Etr).
  exists s'. split; [exact Erun|]. rewrite Etr. reflexivity.
Defined.

(** X12. The fallback for older SDKs ([videos.create], then
    [videos.poll]): an object handed back by [create] is used as it is and
    is never polled, whatever id it carries; a dict with a truthy ["id"] is
    polled with that id when the client can poll; and an exception of
    either call is raised again as a [RuntimeError] that carries its
    text. *)
Theorem create_then_poll_cases {RT : Runtime} (client : Client) (args : CreateArgs)
    (s : State) (w1 : World) (x : exn + SdkValue) :
  videos_create args (world s) = (x, w1) ->
  let s1 := record (ECreate args) s w1 in
  let failed := fun e => PyExc "RuntimeError" ("SDK videos create failed: " ++ exn_str e) in
  (forall e, x = inl e ->
     sdk_create_then_poll client args s = (Raise (failed e), s1)) /\
  (forall attrs, x = inr (SdkObject attrs) ->
     sdk_create_then_poll client args s = (Val (SdkObject attrs), s1)) /\
  (forall fields y w2,
     x = inr (SdkDict fields) ->
     Json.truthy (field "id" fields) = true -> has_poll client = true ->
     videos_poll (field "id" fields) w1 = (y, w2) ->
     sdk_create_then_poll client args s
     = (match y with inr v => Val v | inl e => Raise (failed e) end,
        record (EPoll (field "id" fields)) s1 w2)).
Proof.
  intros Ecreate s1 failed. unfold sdk_create_then_poll, try_except.
  split; [|split].
  - intros e ->. unfold bind, call. rewrite Ecreate. reflexivity.
  - intros attrs ->. unfold bind, call. rewrite Ecreate. reflexivity.
  - intros fields y w2 -> Hid Hpoll Epoll. unfold bind at 1, call at 1.
    rewrite Ecreate. cbn [lift ret sdk_is_dict getattr_or_none sdk_get].
    unfold Json.or_ at 1 2. cbn [Json.truthy].
    change (match Json.assoc "id" fields with Some x => x | None => JNull end)
      with (field "id" fields).
    rewrite Hid, Hpoll. cbn [andb]. unfold call. fold s1.
    change (Json.or_ JNull (field "id" fields)) with (field "id" fields).
    change (world s1) with w1. rewrite Epoll. destruct y; reflexivity.
Qed.

Lemma create_then_poll_cases_witness :
  let s0 := Scripted.start true Scenario.created_object in
  let args := sdk_args "sora-2" "a cat" (Some 8) (Some "1280x720") None None in
  provider_calls
    (map snd (trace (snd (sdk_create_then_poll (RT := Scripted.runtime true)
                            Scenario.ok_client args s0))))
  = ["videos.create"].
Proof.
  intros s0 args.
  rewrite (proj1 (proj2 (create_then_poll_cases (RT := Scripted.runtime true)
                           Scenario.ok_client args s0 _ _ eq_refl))
             _ eq_refl).
  reflexivity.
Defined.

(** X13. The two copies of the SDK strategy differ when
    [download_content] raises. The script swallows the exception and goes
    on to the URL fields of the video object; the web application gives up
    and returns [None]. *)
Theorem download_failure_differs {RT : Runtime} (api_key prompt : string)
    (duration : option Z) (resolution : option string) (model : option string)
    (s : State) (client : Client) (video_obj : SdkValue) (e : exn) :
  let vid_id :=
    Json.or_ (getattr_or_none "id" video_obj)
             (if sdk_is_dict video_obj then sdk_get "id" video_obj else JNull) in
  sdk_present = true ->
  has_videos client = true -> has_download_content client = true ->
  Json.truthy vid_id = true ->
  (forall w1 w2 w3,
     openai_new api_key (world s) = (inr client, w1) ->
     videos_create_and_poll
       (sdk_args (model_or_default model) prompt duration resolution (Some 1000) None)
       w1 = (inr video_obj, w2) ->
     videos_download_content vid_id w2 = (inl e, w3) ->
     exists s3,
       world s3 = w3 /\
       try_sdk_generate api_key prompt duration resolution model s
       = try_except
           (sdk_url_fields video_obj ["url"; "video_url"])
           (fun exc =>
              print (MsgExn "SDK video generation failed, will try HTTP fallback: " exc) ;;;
              ret None)
           s3) /\
  (forall w1 w2 w3,
     openai_new api_key (world s) = (inr client, w1) ->
     videos_create_and_poll
       (sdk_args (model_or_default model) prompt duration resolution (Some 2000) None)
       w1 = (inr video_obj, w2) ->
     videos_download_content vid_id w2 = (inl e, w3) ->
     exists s3,
       world s3 = w3 /\
       generate_video_sdk api_key prompt duration resolution (model_or_default model)
                          None s
       = (Val None, record (EPrint (MsgExn "SDK error: " e)) s3 w3)).
Proof.
  intros vid_id Hsdk Hvid Hdl Hid. split.
  - intros w1 w2 w3 Hnew Hcap Hdown.
    exists (record (EDownload vid_id)
              (record (ECreateAndPoll
                         (sdk_args (model_or_default model) prompt duration resolution
                                   (Some 1000) None))
                      (record (EOpenAI api_key) s w1) w2) w3).
    split; [reflexivity|].
    unfold try_sdk_generate. rewrite Hsdk. cbn [negb].
    unfold try_except at 1 4. unfold bind at 1. unfold call at 1.
    rewrite Hnew. cbn [lift ret]. rewrite Hvid.
    unfold bind at 1. unfold try_except at 1. unfold bind at 1. unfold call at 1.
    cbn [record world trace]. rewrite Hcap. cbn [lift ret].
    unfold bind at 1. unfold try_except at 1. unfold sdk_download.
    fold vid_id. rewrite Hid, Hdl. cbn [andb].
    unfold bind at 1. unfold call at 1. cbn [record world trace].
    rewrite Hdown. cbn [lift raise ret]. reflexivity.
  - intros w1 w2 w3 Hnew Hcap Hdown.
    set (kwargs := sdk_args (model_or_default model) prompt duration resolution
                            (Some 2000) None) in *.
    exists (record (EDownload vid_id)
              (record (EPrint (MsgText "Video object received"))
                 (record (ECreateAndPoll kwargs)
                    (record (EPrint (MsgText "Creating video without input image..."))
                       (record (EPrint (MsgArgs "Calling SDK with: " kwargs))
                          (record (EOpenAI api_key) s w1) w1) w1) w2) w2) w3).
    split; [reflexivity|].
    unfold generate_video_sdk. rewrite Hsdk. cbn [negb]. fold kwargs.
    unfold try_except at 1. unfold bind at 1. unfold call at 1.
    rewrite Hnew. cbn [lift ret]. rewrite Hvid. cbn [negb].
    unfold bind at 1. unfold print at 1.
    unfold bind at 1. unfold create_with_image. unfold bind at 1.
    cbn [image_usable]. unfold bind at 1. unfold print at 1.
    unfold call at 1. cbn [record world trace]. rewrite Hcap. cbn [lift ret].
    unfold extract_video. unfold bind at 1. unfold print at 1.
    unfold bind at 1. unfold sdk_download. fold vid_id. rewrite Hid, Hdl.
    cbn [andb]. unfold bind at 1. unfold call at 1. cbn [record world trace].
    rewrite Hdown. cbn [lift raise]. reflexivity.
Qed.

Lemma download_failure_differs_witness :
  let s0 := Scripted.start true Scenario.download_fails in
  fst (try_sdk_generate (RT := Scripted.runtime true) "sk-test" "a cat" (Some 8)
         (Some "1280x720") None s0) = Val (Some Scenario.video) /\
  fst (generate_video_sdk (RT := Scripted.runtime true) "sk-test" "a cat" (Some 8)
         (Some "1280x720") "sora-2" None s0) = Val None.
Proof.
  intros s0.
  pose proof (download_failure_differs (RT := Scripted.runtime true) "sk-test" "a cat"
                (Some 8) (Some "1280x720") None s0 Scenario.ok_client
                (SdkObject [("id", JStr "video_123"); ("url", JStr Scenario.media_url)])
                (PyExc "APIError" "download failed")
                eq_refl eq_refl eq_refl eq_refl) as (Hscript & Happ).
  split.
  - edestruct Hscript as (s3 & Hw & Hrun); [reflexivity ..|].
    rewrite Hrun. destruct s3 as [w3 tr3]. cbn in Hw. subst w3. reflexivity.
  - edestruct Happ as (s3 & Hw & Hrun); [reflexivity ..|].
    change (model_or_default None) with "sora-2" in Hrun.
    rewrite Hrun. reflexivity.
Defined.

(** ** The order of extraction *)

(** X14. How the web application turns a video object into bytes: when
    the object has an id and the client can download, the bytes of
    [download_content] are the result and no URL is fetched, whatever URL
    the object carries; without an id, a ["url"] attribute that is text is
    fetched (["video_url"] is not looked at); and an object with neither
    an id nor a textual URL gives [None] without any call. *)
Theorem extraction_order {RT : Runtime} (client : Client) (attrs : list (string * json))
    (s : State) :
  let s1 := record (EPrint (MsgText "Video object received")) s (world s) in
  (forall b w2,
     Json.truthy (field "id" attrs) = true -> has_download_content client = true ->
     videos_download_content (field "id" attrs) (world s) = (inr (ContentBytes b), w2) ->
     extract_video client (SdkObject attrs) s
     = (Val (Some b), record (EDownload (field "id" attrs)) s1 w2)) /\
  (forall u,
     Json.truthy (field "id" attrs) = false ->
     field "url" attrs = JStr u ->
     extract_video client (SdkObject attrs) s = fetch_content (JStr u) 180 s1) /\
  (Json.truthy (field "id" attrs) = false ->
   (forall u, field "url" attrs <> JStr u) ->
   (forall u, field "video_url" attrs <> JStr u) ->
   extract_video client (SdkObject attrs) s = (Val None, s1)).
Proof.
  intros s1. unfold extract_video, sdk_download.
  cbn [sdk_is_dict getattr_or_none].
  change (match Json.assoc "id" attrs with Some x => x | None => JNull end)
    with (field "id" attrs).
  assert (Hor : Json.truthy (Json.or_ (field "id" attrs) JNull)
                = Json.truthy (field "id" attrs)).
  { unfold Json.or_. destruct (Json.truthy (field "id" attrs)) eqn:E; [exact E | reflexivity]. }
  assert (Hor' : Json.truthy (field "id" attrs) = true ->
                 Json.or_ (field "id" attrs) JNull = field "id" attrs).
  { intros E. unfold Json.or_. now rewrite E. }
  split; [|split].
  - intros b w2 Hid Hdl Edown. rewrite Hor, Hid, Hdl, (Hor' Hid). cbn [andb].
    unfold bind, print, call. cbn [record world]. fold s1.
    change (world s1) with (world s). rewrite Edown. reflexivity.
  - intros u Hid Hurl. rewrite Hor, Hid. cbn [andb].
    unfold bind at 1 2, print, ret. fold s1.
    cbn [sdk_url_fields hasattr getattr_or_none sdk_is_dict andb].
    unfold field in Hurl.
    destruct (Json.assoc "url" attrs); [|discriminate Hurl].
    now rewrite Hurl.
  - intros Hid Hurl Hvurl. rewrite Hor, Hid. cbn [andb].
    unfold bind at 1 2, print, ret. fold s1.
    cbn [sdk_url_fields hasattr getattr_or_none sdk_is_dict andb].
    change (match Json.assoc "url" attrs with Some x => x | None => JNull end)
      with (field "url" attrs).
    change (match Json.assoc "video_url" attrs with Some x => x | None => JNull end)
      with (field "video_url" attrs).
    destruct (Json.assoc "url" attrs);
      destruct (Json.assoc "video_url" attrs);
      destruct (field "url" attrs) eqn:E1; try (now contradiction (Hurl s0));
      destruct (field "video_url" attrs) eqn:E2; try (now contradiction (Hvurl s0));
      reflexivity.
Qed.

Lemma extraction_order_witness :
  let s0 := Scripted.start true Scenario.sdk_empty_download in
  fst (extract_video (RT := Scripted.runtime true) Scenario.ok_client
         (SdkObject [("id", JStr "video_123"); ("url", JStr Scenario.media_url)]) s0)
  = Val (Some []).
Proof.
  intros s0.
  erewrite (proj1 (extraction_order (RT := Scripted.runtime true) Scenario.ok_client
                     [("id", JStr "video_123"); ("url", JStr Scenario.media_url)] s0));
    reflexivity.
Defined.

(** ** The legacy submission *)

(** X15. The form of the legacy strategy always carries the model (never
    empty: ["sora-2"] stands in for a missing or empty one), the prompt and
    a size; it carries the seconds only for a duration that is present and
    not zero, where the SDK strategy would send the default bucket. *)
Theorem legacy_form_fields (prompt : string) (duration : option Z)
    (resolution : option string) (model : option string) :
  files_payload prompt duration resolution model
  = ([("model", model_or_default model); ("prompt", prompt);
      ("size", parse_resolution_to_size resolution)]
       ++ match duration with
          | Some d => if d =? 0 then [] else [("seconds", bucket_seconds duration)]
          | None => []
          end)%list /\
  model_or_default model <> "" /\
  ca_seconds (sdk_args (model_or_default model) prompt (Some 0) resolution None None)
  = "4".
Proof.
  split; [|split].
  - unfold files_payload.
    destruct (parse_resolution_to_size_range resolution) as [-> | ->];
      cbn [String.eqb negb app]; unfold Py.truthy;
      destruct duration as [d|]; try reflexivity;
      destruct (d =? 0); reflexivity.
  - unfold model_or_default. destruct model as [m|]; [|discriminate].
    destruct (String.eqb_spec m ""); [discriminate | assumption].
  - reflexivity.
Qed.

Section LegacyError.

Context {RT : Runtime}.

(** X16. What the legacy strategy does with an answer of 400 or above. It
    never makes a further call. Without a JSON body, or with one that is
    not a non-empty dict, it prints the error line only and returns
    [None], also when the status is 403. With an ["error"] dict whose
    ["message"] is text it returns [None], and prints the verification
    advice exactly when the text contains "must be verified" or the status
    is 403. With a ["message"] that is a number, the membership test
    raises a [TypeError] that leaves the strategy. *)
Theorem legacy_create_error (fuel : nat) (api_key : string) (r : Response)
    (s : State) :
  400 <= status_code r ->
  let s1 := record (EPrint (MsgHttp "HTTP create error" (status_code r) (text r)))
                   s (world s) in
  (forall data,
     json_body r = data ->
     match data with Some (JObj (_ :: _)) => False | _ => True end ->
     legacy_result fuel api_key r s = (Val None, s1)) /\
  (forall fields efields msg,
     json_body r = Some (JObj fields) -> fields <> [] ->
     Json.assoc "error" fields = Some (JObj efields) ->
     Json.assoc "message" efields = Some (JStr msg) ->
     legacy_result fuel api_key r s
     = if Py.contains "must be verified" msg || (status_code r =? 403)
       then (Val None, snd (verification_notice s1))
       else (Val None, s1)) /\
  (forall fields efields n,
     json_body r = Some (JObj fields) -> fields <> [] ->
     Json.assoc "error" fields = Some (JObj efields) ->
     Json.assoc "message" efields = Some (JNum n) ->
     legacy_result fuel api_key r s
     = (Raise (PyExc "TypeError" "argument is not iterable"), s1)).
Proof.
  intros Hst s1.
  assert (Hge : (status_code r >=? 400) = true)
    by (rewrite Z.geb_leb; apply Z.leb_le; lia).
  unfold legacy_result, create_error_notice. rewrite Hge.
  split; [|split].
  - intros data -> Hshape.
    destruct data as [[| | | | |[|kv fields]]|];
      try (now contradiction Hshape);
      cbn [Json.is_dict]; rewrite ?andb_false_r; reflexivity.
  - intros fields efields msg -> Hne Herr Hmsg.
    destruct fields as [|kv fields]; [now contradiction Hne|].
    unfold bind at 1 2. unfold print at 1. fold s1.
    cbn [Json.truthy Json.is_dict andb].
    unfold Json.get_default at 1. rewrite Herr. unfold bind at 1. cbn [lift ret].
    cbn [Json.is_dict]. unfold Json.get_default. rewrite Hmsg.
    unfold bind at 1. cbn [lift ret Json.contains].
    unfold bind at 1. cbn [ret].
    destruct (Py.contains "must be verified" msg || (status_code r =? 403)).
    + unfold bind. destruct (verification_notice s1) as [[[]|e|] s2] eqn:En;
        try reflexivity; exfalso; revert En;
        unfold verification_notice, bind, print; discriminate.
    + reflexivity.
  - intros fields efields n -> Hne Herr Hmsg.
    destruct fields as [|kv fields]; [now contradiction Hne|].
    unfold bind at 1 2. unfold print at 1. fold s1.
    cbn [Json.truthy Json.is_dict andb].
    unfold Json.get_default at 1. rewrite Herr. unfold bind at 1. cbn [lift ret].
    cbn [Json.is_dict]. unfold Json.get_default. rewrite Hmsg.
    unfold bind at 1. cbn [lift ret Json.contains]. reflexivity.
Qed.

End LegacyError.

Lemma legacy_create_error_witness :
  let s0 := Scripted.start false Scenario.forbidden_without_body in
  legacy_result (RT := Scripted.runtime false) 4 "sk-test"
                (Scenario.reply 403 None []) s0
  = (Val None, record (EPrint (MsgHttp "HTTP create error" 403 "")) s0 (world s0)).
Proof.
  intros s0.
  apply (proj1 (legacy_create_error (RT := Scripted.runtime false) 4 "sk-test"
                  (Scenario.reply 403 None []) s0 ltac:(cbn; lia))
           None eq_refl I).
Defined.

(** A 403 without a body: the legacy strategy prints the error line and
    nothing else. *)
Example forbidden_without_body_run :
  let run := http_fallback_generate (RT := Scripted.runtime false) 4 "sk-test" "a cat"
               (Some 8) (Some "1280x720") None
               (Scripted.start false Scenario.forbidden_without_body) in
  fst run = Val None /\
  filter (fun e => match e with EPrint _ => true | _ => false end)
         (Scripted.events (snd run))
  = [EPrint (MsgHttp "HTTP create error" 403 "")].
Proof.
  vm_compute. split; reflexivity.
Qed.

(** ** The web application without a usable image *)

Section NoImage.

Context {RT : Runtime}.

(** X17. In the web application, a request without an image, with an
    empty path or with a path that does not exist makes a single
    create call, without the image. So does a path that exists but
    cannot be opened: the call that carries the image is never made. *)
Theorem create_without_image (kwargs : CreateArgs) (image : option string)
    (s : State) :
  (image_usable image (world s) = false ->
   create_with_image kwargs image s
   = call (ECreateAndPoll kwargs) (videos_create_and_poll kwargs)
          (record (EPrint (MsgText "Creating video without input image...")) s
                  (world s))) /\
  (forall p e w1,
     image = Some p -> image_usable image (world s) = true ->
     fs_open p (world s) = (inl e, w1) ->
     create_with_image kwargs image s
     = call (ECreateAndPoll kwargs) (videos_create_and_poll kwargs)
            (record (EPrint (MsgExn "Failed to use input image: " e))
                    (record (EOpen p) s w1) w1)).
Proof.
  unfold create_with_image. split.
  - intros Hno. unfold bind at 1. rewrite Hno.
    destruct image; reflexivity.
  - intros p e w1 -> Hyes Hopen. unfold bind at 1. rewrite Hyes.
    unfold try_except. unfold bind at 1. unfold call at 1. rewrite Hopen.
    cbn [lift raise]. reflexivity.
Qed.

End NoImage.

Lemma create_without_image_witness :
  let s0 := Scripted.start true Scenario.image_refused in
  let kwargs := sdk_args "sora-2" "a cat" (Some 4) (Some "1280x720") (Some 2000) None in
  provider_calls
    (map snd (trace (snd (create_with_image (RT := Scripted.runtime true) kwargs
                            (Some "videos/missing.jpg") s0))))
  = ["videos.create_and_poll"] /\
  In (ECreateAndPoll kwargs)
     (map snd (trace (snd (create_with_image (RT := Scripted.runtime true) kwargs
                             (Some "videos/missing.jpg") s0)))).
Proof.
  intros s0 kwargs.
  rewrite (proj1 (create_without_image (RT := Scripted.runtime true) kwargs
                    (Some "videos/missing.jpg") s0) eq_refl).
  vm_compute. split; [reflexivity | tauto].
Defined.

(** ** The Responses strategy after its answer *)

Section ResponsesOutcome.

Context {RT : Runtime}.



End ResponsesOutcome.


(** ** Model discovery *)


Lemma insert_sorted_perm (x : string) (l : list string) :
  Permutation (x :: l) (insert_sorted x l).
Proof.
  induction l as [|y r IH]; cbn [insert_sorted]; [reflexivity|].
  destruct (String.leb x y); [reflexivity|].
  rewrite perm_swap. now constructor.
Qed.

Lemma py_sorted_perm (l : list string) : Permutation l (py_sorted l).
Proof.
  induction l as [|x r IH]; cbn [py_sorted]; [constructor|].
  rewrite <- insert_sorted_perm. now constructor.
Qed.

Lemma insert_sorted_sorted (x : string) (l : list string) :
  Sorted (fun a b => String.leb a b = true) l ->
  Sorted (fun a b => String.leb a b = true) (insert_sorted x l).
Proof.
  induction 1 as [|y r Hr IH Hy]; cbn [insert_sorted].
  - repeat constructor.
  - destruct (String.leb x y) eqn:E.
    + constructor; [now constructor | now constructor].
    + assert (Hyx : String.leb y x = true).
      { destruct (String.leb_total x y) as [H|H]; [congruence | exact H]. }
      constructor; [exact IH|].
      destruct r as [|z r']; cbn [insert_sorted] in *.
      * now constructor.
      * destruct (String.leb x z); constructor; [exact Hyx|].
        now inversion Hy.
Qed.

Lemma py_sorted_sorted (l : list string) :
  Sorted (fun a b => String.leb a b = true) (py_sorted l).
Proof.
  induction l as [|x r IH]; cbn [py_sorted]; [constructor|].
  now apply insert_sorted_sorted.
Qed.

Lemma video_candidates_filter (ids : list string) :
  video_candidates ids
  = filter (fun id => negb (String.eqb id "") && looks_video_capable id) ids.
Proof.
  induction ids as [|id rest IH]; [reflexivity|]. cbn [video_candidates filter].
  destruct (String.eqb id ""); cbn [negb andb]; [exact IH|].
  destruct (looks_video_capable id); now rewrite IH.
Qed.

(** X19. What [list_models.py] prints after its heading: the ids of the
    listing that are not empty and contain "video" or "sora" in any
    letter case, each as often as it is listed, in ascending order; and
    the single note when there is none. *)
Theorem discovered_report_spec (ids : list string) :
  let matches := fun id =>
    negb (String.eqb id "") &&
    (Py.contains "video" (Py.lower id) || Py.contains "sora" (Py.lower id)) in
  exists lines,
    discovered_report ids
    = MsgText "Discovered models that look video-capable:" :: lines /\
    (filter matches ids = [] ->
     lines = [MsgText "  (none found; your account may not have access yet)"]) /\
    (filter matches ids <> [] ->
     exists shown,
       lines = map (fun mid => MsgText ("  - " ++ mid)) shown /\
       Permutation (filter matches ids) shown /\
       Sorted (fun a b => String.leb a b = true) shown).
Proof.
  intros matches. unfold discovered_report. rewrite video_candidates_filter.
  change (fun id => negb (String.eqb id "") && looks_video_capable id) with matches.
  eexists. split; [reflexivity|]. split.
  - intros ->. reflexivity.
  - intros Hne. destruct (filter matches ids) as [|c cs] eqn:E; [now contradiction Hne|].
    exists (py_sorted (c :: cs)). split; [reflexivity|]. split.
    + apply py_sorted_perm.
    + apply py_sorted_sorted.
Qed.

Lemma discovered_report_spec_witness :
  discovered_report ["gpt-4o"; "sora-2-pro"; ""; "Sora-2"; "my-VIDEO-model"; "sora-2"]
  = map MsgText ["Discovered models that look video-capable:";
                 "  - Sora-2"; "  - my-VIDEO-model"; "  - sora-2"; "  - sora-2-pro"].
Proof.
  destruct (discovered_report_spec
              ["gpt-4o"; "sora-2-pro"; ""; "Sora-2"; "my-VIDEO-model"; "sora-2"])
    as (lines & Hrep & _ & Hsome).
  destruct Hsome as (shown & _ & _ & _); [vm_compute; discriminate|].
  reflexivity.
Defined.

(** ** The credential *)

Lemma lstrip_head (s : string) : starts_with_space (Py.lstrip s) = false.
Proof.
  induction s as [|c r IH]; [reflexivity|]. cbn [Py.lstrip].
  destruct (Py.is_space c) eqn:E; [exact IH | exact E].
Qed.

Lemma rstrip_head (s : string) :
  starts_with_space s = false -> starts_with_space (Py.rstrip s) = false.
Proof.
  destruct s as [|c r]; [reflexivity|]. cbn [starts_with_space Py.rstrip].
  intros Hc. destruct (Py.rstrip r); [rewrite Hc; exact Hc | exact Hc].
Qed.

Lemma rstrip_last (s : string) : ends_with_space (Py.rstrip s) = false.
Proof.
  induction s as [|c r IH]; [reflexivity|]. cbn [Py.rstrip].
  destruct (Py.rstrip r) as [|c' r'] eqn:E.
  - destruct (Py.is_space c) eqn:Ec; [reflexivity | exact Ec].
  - exact IH.
Qed.

Lemma rstrip_fixed (s : string) :
  ends_with_space s = false -> Py.rstrip s = s.
Proof.
  induction s as [|c r IH]; [reflexivity|]. cbn [Py.rstrip].
  destruct r as [|c' r'].
  - cbn [ends_with_space Py.rstrip]. now intros ->.
  - intros H. change (ends_with_space (String c (String c' r')))
      with (ends_with_space (String c' r')) in H.
    now rewrite (IH H).
Qed.

Lemma lstrip_fixed (s : string) :
  starts_with_space s = false -> Py.lstrip s = s.
Proof.
  destruct s as [|c r]; [reflexivity|]. cbn [starts_with_space Py.lstrip].
  now intros ->.
Qed.

(** X20. Both [load_api_key] functions hand out the stripped value of the
    variable: a key that is not empty, has no white space at either end
    and is left unchanged by another [strip]. When nothing is left after
    stripping, the script prints a hint and exits with status 2, and the
    web application raises a [ValueError] without printing. They never
    change the world. *)
Theorem load_api_key_stripped {RT : Runtime} (env_key : string) (s : State) :
  let key := Py.strip env_key in
  (key <> "" ->
   load_api_key env_key s = (Val key, s) /\
   app_load_api_key env_key s = (Val key, s) /\
   starts_with_space key = false /\ ends_with_space key = false /\
   Py.strip key = key) /\
  (key = "" ->
   load_api_key env_key s
   = (Raise (PyExc "SystemExit" "2"),
      record (EPrint (MsgText "Missing OPENAI_API_KEY. Put it in .env or export it."))
             s (world s)) /\
   app_load_api_key env_key s
   = (Raise (PyExc "ValueError" "Missing OPENAI_API_KEY in .env"), s)).
Proof.
  intros key. unfold load_api_key, app_load_api_key. fold key. split.
  - intros Hne. apply String.eqb_neq in Hne. rewrite Hne.
    assert (Hhead : starts_with_space key = false)
      by (apply rstrip_head, lstrip_head).
    assert (Hlast : ends_with_space key = false) by apply rstrip_last.
    repeat split; try assumption.
    unfold Py.strip at 1. rewrite (lstrip_fixed key Hhead).
    now apply rstrip_fixed.
  - intros ->. split; reflexivity.
Qed.

Lemma load_api_key_stripped_witness :
  fst (load_api_key (RT := Scripted.runtime true) "  sk-test  "
         (Scripted.start true Scripted.empty)) = Val "sk-test".
Proof.
  rewrite (proj1 (proj1 (load_api_key_stripped (RT := Scripted.runtime true)
                           "  sk-test  " (Scripted.start true Scripted.empty))
                    ltac:(discriminate))).
  reflexivity.
Defined.

(** ** The name of a generated video *)

Lemma ends_with_app (a suffix : string) : ends_with suffix (a ++ suffix) = true.
Proof.
  induction a as [|c r IH]; cbn [String.append].
  - destruct suffix; cbn [ends_with]; now rewrite String.eqb_refl.
  - cbn [ends_with]. rewrite IH. apply orb_true_r.
Qed.

(** X21. The file name the web application gives a video always ends in
    ".mp4": a name that has the suffix is kept, any other gets it added,
    and an empty name becomes "video_" followed by the time stamp. Naming
    the result again changes nothing. *)
Theorem video_file_name_spec (name : string) (t : Z) :
  ends_with ".mp4" (video_file_name name t) = true /\
  (ends_with ".mp4" name = true -> video_file_name name t = name) /\
  (name <> "" -> ends_with ".mp4" name = false ->
   video_file_name name t = name ++ ".mp4") /\
  video_file_name "" t = "video_" ++ Py.str t ++ ".mp4" /\
  (forall t', video_file_name (video_file_name name t) t' = video_file_name name t).
Proof.
  assert (Hempty : forall s, ends_with ".mp4" s = true -> s <> "")
    by (intros s H ->; discriminate H).
  assert (Hstamp : ends_with ".mp4" ("video_" ++ Py.str t) = false).
  { cbn [String.append ends_with String.eqb Ascii.eqb Bool.eqb orb andb].
    pose proof (str_numeral t) as Hn.
    induction (Py.str t) as [|c r IH]; [reflexivity|].
    cbn [all_chars] in Hn. apply andb_true_iff in Hn as (Hc & Hr).
    cbn [ends_with]. rewrite (IH Hr).
    destruct c as [[|] [|] [|] [|] [|] [|] [|] [|]]; try discriminate Hc;
      destruct r as [|c1 [|c2 [|c3 [|c4 r']]]]; try reflexivity;
      cbn [String.eqb Ascii.eqb Bool.eqb andb orb]; try reflexivity;
      rewrite ?andb_false_r; reflexivity. }
  assert (Hends : ends_with ".mp4" (video_file_name name t) = true).
  { unfold video_file_name.
    destruct (ends_with ".mp4" (if String.eqb name "" then _ else name)) eqn:E;
      [exact E | apply ends_with_app]. }
  split; [exact Hends|]. split; [|split; [|split]].
  - intros H. unfold video_file_name.
    apply Hempty in H as Hne. apply String.eqb_neq in Hne. rewrite Hne.
    now rewrite H.
  - intros Hne H. unfold video_file_name.
    apply String.eqb_neq in Hne. rewrite Hne. now rewrite H.
  - unfold video_file_name. cbn [String.eqb]. rewrite Hstamp. reflexivity.
  - intros t'. unfold video_file_name at 1.
    pose proof (Hempty _ Hends) as Hne. apply String.eqb_neq in Hne.
    now rewrite Hne, Hends.
Qed.

Lemma video_file_name_spec_witness :
  video_file_name "sunset" 1700000000 = "sunset.mp4" /\
  video_file_name "sunset.mp4" 1700000000 = "sunset.mp4".
Proof.
  split.
  - apply (proj1 (proj2 (proj2 (video_file_name_spec "sunset" 1700000000))));
      [discriminate | reflexivity].
  - apply (proj1 (proj2 (video_file_name_spec "sunset.mp4" 1700000000))).
    reflexivity.
Defined.

Lemma main_saves_only_video_witness :
  let run := main (RT := Scripted.runtime true) 4 "sk-test" Scenario.demo_args
                  (Scripted.start true Scenario.fail_fail_succeed) in
  exists t d, In (t, EWrite "out.mp4" d) (trace (snd run)) /\ d <> [].
Proof.
  intros run.
  destruct (main_saves_only_video (RT := Scripted.runtime true) 4 "sk-test"
              Scenario.demo_args (Scripted.start true Scenario.fail_fail_succeed))
    as (l & El & Hall & Hok).
  destruct Hok as (t & d & Hin); [vm_compute; reflexivity|].
  exists t, d. split.
  - subst run. rewrite El. apply in_or_app. right. exact Hin.
  - exact (proj2 (Hall t _ d Hin)).
Defined.
